(** * The jiu-jitsu student model ([src/models/student.py])

    A shallow embedding of the [Student] class: the record and its
    constructor, the dictionary conversions [to_dict] / [from_dict], the
    graduation rule [calculate_presences_for_next_degree], the two writing
    methods [add_presence] and [save], and the roster queries [get_all] and
    [get_students_close_to_graduation].

    Python integers are unbounded, so they are [Z]; strings are [string];
    a [datetime] is an instant, of which only the identity matters here.
    The types of the fields are the ones the constructor is annotated with. *)

From Stdlib Require Import ZArith Lia.
From stdpp Require Import gmap strings list fin_maps.

Local Open Scope string_scope.
Local Open Scope list_scope.
Local Open Scope Z_scope.

(** ** Data *)

Definition datetime : Type := Z.

(** [class Student]: the eight constructor arguments and the three
    attendance attributes. *)
Record Student : Type := mkStudent {
  uid : string;
  name : string;
  email : string;
  belt : string;
  age : Z;
  address : string;
  education : string;
  degrees : Z;
  total_presences : Z;
  last_presence_date : option datetime;   (* [None] until a first presence *)
  history_presences : list datetime
}.

(** [Student.__init__]; the callers that leave out [address], [education]
    or [degrees] pass the empty string, the empty string and [0]. *)
Definition init (uid name email belt : string) (age : Z)
    (address education : string) (degrees : Z) : Student :=
  {| uid := uid; name := name; email := email; belt := belt; age := age;
     address := address; education := education; degrees := degrees;
     total_presences := 0;
     last_presence_date := None;
     history_presences := [] |}.

(** ** The graduation rule *)

(** [belt in ['colorida', 'cinza', 'amarela', 'laranja', 'verde']] *)
Definition coloured_belts : list string :=
  ["colorida"; "cinza"; "amarela"; "laranja"; "verde"].

Definition belt_in (b : string) (l : list string) : bool :=
  existsb (String.eqb b) l.

(** [Student.calculate_presences_for_next_degree] *)
Definition calculate_presences_for_next_degree (self : Student) : Z :=
  if age self <=? 6 then
    if degrees self =? 0 then Z.max 0 (10 - total_presences self)
    else if degrees self =? 1 then Z.max 0 (15 - total_presences self)
    else if degrees self =? 2 then Z.max 0 (15 - total_presences self)
    else if degrees self =? 3 then Z.max 0 (20 - total_presences self)
    else 0
  else if age self <=? 13 then
    let presences_needed := (degrees self + 1) * 25 in
    Z.max 0 (presences_needed - total_presences self)
  else
    if String.eqb (belt self) "branca" then Z.max 0 (50 - total_presences self)
    else if belt_in (belt self) coloured_belts then
      Z.max 0 (35 - total_presences self)
    else
      let presences_needed := (degrees self + 1) * 50 in
      Z.max 0 (presences_needed - total_presences self).

(** ** Dictionaries and documents *)

(** The dictionary of [to_dict] and [from_dict]: the eleven keys of a student
    document, each absent ([None]) or present with a value of the type of
    the field it is read into. Under ['last_presence_date'] the value itself
    may be Python's [None], hence the two options. *)
Record Dict : Type := mkDict {
  k_uid : option string;
  k_name : option string;
  k_email : option string;
  k_belt : option string;
  k_age : option Z;
  k_address : option string;
  k_education : option string;
  k_degrees : option Z;
  k_total_presences : option Z;
  k_last_presence_date : option (option datetime);
  k_history_presences : option (list datetime)
}.

(** The dictionary with no key. *)
Definition empty_dict : Dict :=
  mkDict None None None None None None None None None None None.

(** [data.get(key, dflt)] and [data.get(key)] *)
Definition get {A : Type} (entry : option A) (dflt : A) : A :=
  match entry with Some v => v | None => dflt end.

Definition get_or_none {A : Type} (entry : option (option A)) : option A :=
  match entry with Some v => v | None => None end.

(** [Student.to_dict] *)
Definition to_dict (self : Student) : Dict :=
  {| k_uid := Some (uid self);
     k_name := Some (name self);
     k_email := Some (email self);
     k_belt := Some (belt self);
     k_age := Some (age self);
     k_address := Some (address self);
     k_education := Some (education self);
     k_degrees := Some (degrees self);
     k_total_presences := Some (total_presences self);
     k_last_presence_date := Some (last_presence_date self);
     k_history_presences := Some (history_presences self) |}.

Definition set_total_presences (v : Z) (s : Student) : Student :=
  mkStudent (uid s) (name s) (email s) (belt s) (age s) (address s)
    (education s) (degrees s) v (last_presence_date s) (history_presences s).

Definition set_last_presence_date (v : option datetime) (s : Student)
    : Student :=
  mkStudent (uid s) (name s) (email s) (belt s) (age s) (address s)
    (education s) (degrees s) (total_presences s) v (history_presences s).

Definition set_history_presences (v : list datetime) (s : Student)
    : Student :=
  mkStudent (uid s) (name s) (email s) (belt s) (age s) (address s)
    (education s) (degrees s) (total_presences s) (last_presence_date s) v.

(** [Student.from_dict]: the constructor on the first eight keys, then the
    three attendance attributes assigned one after the other. *)
Definition from_dict (data : Dict) : Student :=
  let student :=
    init (get (k_uid data) EmptyString)
         (get (k_name data) EmptyString)
         (get (k_email data) EmptyString)
         (get (k_belt data) EmptyString)
         (get (k_age data) 0)
         (get (k_address data) EmptyString)
         (get (k_education data) EmptyString)
         (get (k_degrees data) 0) in
  let student := set_total_presences (get (k_total_presences data) 0) student in
  let student :=
    set_last_presence_date (get_or_none (k_last_presence_date data)) student in
  let student :=
    set_history_presences (get (k_history_presences data) []) student in
  student.

(** The [users] collection is shared with the other kinds of account: its
    documents are free-form maps from field names to values. *)
Inductive value : Type :=
  | VInt (n : Z)
  | VStr (s : string).

(** [set(data, merge=True)] on a free-form document: the fields of [data]
    replace the stored ones, any other stored field stays. *)
Definition merge_document (data : gmap string value)
    (stored : option (gmap string value)) : gmap string value :=
  match stored with
  | Some old => data ∪ old
  | None => data
  end.

(** The same on a student document, key by key. *)
Definition merge_key {A : Type} (new old : option A) : option A :=
  match new with Some _ => new | None => old end.

Definition merge_dict (data : Dict) (stored : option Dict) : Dict :=
  match stored with
  | None => data
  | Some old =>
      {| k_uid := merge_key (k_uid data) (k_uid old);
         k_name := merge_key (k_name data) (k_name old);
         k_email := merge_key (k_email data) (k_email old);
         k_belt := merge_key (k_belt data) (k_belt old);
         k_age := merge_key (k_age data) (k_age old);
         k_address := merge_key (k_address data) (k_address old);
         k_education := merge_key (k_education data) (k_education old);
         k_degrees := merge_key (k_degrees data) (k_degrees old);
         k_total_presences :=
           merge_key (k_total_presences data) (k_total_presences old);
         k_last_presence_date :=
           merge_key (k_last_presence_date data) (k_last_presence_date old);
         k_history_presences :=
           merge_key (k_history_presences data) (k_history_presences old) |}
  end.

(** ** The store and its failures *)

(** The Firestore database behind [get_db()]: the two collections, keyed by
    document id. *)
Record Db : Type := mkDb {
  users : gmap string (gmap string value);
  students : gmap string Dict
}.

(** What the outside world does during one call: whether [get_db()] returns
    a handle or raises, whether a write to a document of a collection and a
    read of a collection go through or raise, and the clock of
    [datetime.now()]. *)
Record Env : Type := mkEnv {
  db_available : bool;
  write_ok : string -> string -> bool;
  read_ok : string -> bool;
  now : datetime
}.

(** ** Methods that mutate: state and exceptions *)

(** A method runs on the object it is called on and on the database; both
    are mutated in place, so what was done before an exception stays done. *)
Record World : Type := mkWorld {
  self_of : Student;
  db_of : Db
}.

Inductive outcome (A : Type) : Type :=
  | Ret (a : A)
  | Raise.
Arguments Ret {A} a.
Arguments Raise {A}.

Definition Py (A : Type) : Type := World -> outcome A * World.

#[local] Instance Py_ret : MRet Py := fun A a w => (Ret a, w).

#[local] Instance Py_bind : MBind Py := fun A B k m w =>
  match m w with
  | (Ret a, w') => k a w'
  | (Raise, w') => (Raise, w')
  end.

Definition raise {A : Type} : Py A := fun w => (Raise, w).

(** [try: body / except Exception: handler] *)
Definition try_except {A : Type} (body handler : Py A) : Py A := fun w =>
  match body w with
  | (Ret a, w') => (Ret a, w')
  | (Raise, w') => handler w'
  end.

Definition get_self : Py Student := fun w => (Ret (self_of w), w).

Definition update_self (f : Student -> Student) : Py unit := fun w =>
  (Ret tt, mkWorld (f (self_of w)) (db_of w)).

(** [db = get_db()] *)
Definition get_db (env : Env) : Py unit :=
  if db_available env then mret tt else raise.

(** [db.collection('users').document(id).set(data, merge=True)] *)
Definition set_user_document (env : Env) (id : string)
    (data : gmap string value) : Py unit := fun w =>
  if write_ok env "users" id then
    let db := db_of w in
    (Ret tt,
     mkWorld (self_of w)
       (mkDb (<[id := merge_document data (users db !! id)]> (users db))
             (students db)))
  else (Raise, w).

(** [db.collection('students').document(id).set(data, merge=True)] *)
Definition set_student_document (env : Env) (id : string) (data : Dict)
    : Py unit := fun w =>
  if write_ok env "students" id then
    let db := db_of w in
    (Ret tt,
     mkWorld (self_of w)
       (mkDb (users db)
             (<[id := merge_dict data (students db !! id)]> (students db))))
  else (Raise, w).

(** [Student.add_presence]; [date] is [None] when the caller leaves it out. *)
Definition add_presence (env : Env) (date : option datetime) : Py bool :=
  let date := match date with None => now env | Some d => d end in
  try_except
    (_ ← get_db env;
     _ ← update_self
           (fun self => set_total_presences (total_presences self + 1) self);
     _ ← update_self (set_last_presence_date (Some date));
     _ ← update_self
           (fun self =>
              set_history_presences (history_presences self ++ [date]) self);
     self ← get_self;
     _ ← set_student_document env (uid self) (to_dict self);
     mret true)
    (mret false).

(** The dictionary [user_data] that [save] writes to the [users] collection. *)
Definition user_data (self : Student) : gmap string value :=
  <["uid" := VStr (uid self)]>
  (<["email" := VStr (email self)]>
  (<["role" := VStr "aluno"]>
  (<["name" := VStr (name self)]>
  (<["belt" := VStr (belt self)]>
  (<["age" := VInt (age self)]>
  (<["address" := VStr (address self)]>
  (<["education" := VStr (education self)]>
  (<["degrees" := VInt (degrees self)]> ∅)))))))).

(** [Student.save] *)
Definition save (env : Env) : Py bool :=
  try_except
    (_ ← get_db env;
     self ← get_self;
     _ ← set_user_document env (uid self) (user_data self);
     self ← get_self;
     _ ← set_student_document env (uid self) (to_dict self);
     mret true)
    (mret false).

(** One call of [add_presence], as a caller sees it: the world it meets and
    the date it passes. *)
Record call : Type := mkCall {
  call_env : Env;
  call_date : option datetime
}.

(** Calls of [add_presence] one after the other on the same object. *)
Fixpoint add_presences (calls : list call) (w : World) : World :=
  match calls with
  | [] => w
  | c :: rest =>
      add_presences rest (add_presence (call_env c) (call_date c) w).2
  end.

(** ** Roster queries *)

(** [Student.get_by_uid]: any exception ends in [None]. *)
Definition get_by_uid (env : Env) (db : Db) (id : string) : option Student :=
  if db_available env && read_ok env "students" then
    match students db !! id with
    | Some doc => Some (from_dict doc)
    | None => None
    end
  else None.

(** [Student.get_all]: the documents of the collection in the order the
    stream yields them; any exception ends in the empty list. *)
Definition get_all (env : Env) (db : Db) : list Student :=
  if db_available env && read_ok env "students" then
    foldl (fun students doc => students ++ [from_dict doc]) []
      (map_to_list (students db)).*2
  else [].

(** [Student.get_students_close_to_graduation] *)
Definition get_students_close_to_graduation (env : Env) (db : Db)
    (max_presences : Z) : list Student :=
  let students := get_all env db in
  foldl
    (fun close_to_graduation student =>
       let presences_needed := calculate_presences_for_next_degree student in
       if (0 <? presences_needed) && (presences_needed <=? max_presences)
       then close_to_graduation ++ [student]
       else close_to_graduation)
    [] students.

(** [student.degrees = int(data['degrees'])] of the update route. *)
Definition set_degrees (v : Z) (s : Student) : Student :=
  mkStudent (uid s) (name s) (email s) (belt s) (age s) (address s)
    (education s) v (total_presences s) (last_presence_date s)
    (history_presences s).

(** A student with the four values the rule reads, everything else empty. *)
Definition pupil (age : Z) (belt : string) (degrees total_presences : Z)
    : Student :=
  mkStudent EmptyString EmptyString EmptyString belt age EmptyString
    EmptyString degrees total_presences None [].

(** The attendance counter agrees with the attendance history:
    [total_presences == len(history_presences)]. *)
Definition counter_matches_history (s : Student) : Prop :=
  total_presences s = Z.of_nat (length (history_presences s)).

(** What the three assignments of [add_presence] make of a student. *)
Definition with_presence (date : datetime) (s : Student) : Student :=
  set_history_presences (history_presences s ++ [date])
    (set_last_presence_date (Some date)
       (set_total_presences (total_presences s + 1) s)).

(** The date [add_presence] records: the one passed, or the clock's. *)
Definition date_of (env : Env) (date : option datetime) : datetime :=
  match date with None => now env | Some d => d end.

(** A world where nothing fails, one with no database handle, and one whose
    writes to the [students] collection fail; the clock shows 1000. *)
Definition env_ok : Env :=
  mkEnv true (fun _ _ => true) (fun _ => true) 1000.

Definition env_no_db : Env :=
  mkEnv false (fun _ _ => true) (fun _ => true) 1000.

Definition env_no_write : Env :=
  mkEnv true (fun coll _ => negb (String.eqb coll "students"))
    (fun _ => true) 1000.

Definition empty_db : Db := mkDb ∅ ∅.

Definition ana : Student :=
  init "u1" "Ana" "ana@ced.br" "branca" 20 "Rua A" "medio" 0.

(** A roster of four: one student ready (0 left), one close (5 left), one
    close at the threshold (10 left) and one far (25 left). *)
Definition roster : Db :=
  mkDb ∅
    (<["a" := to_dict (pupil 5 "branca" 4 0)]>
    (<["b" := to_dict (pupil 20 "branca" 0 45)]>
    (<["c" := to_dict (pupil 20 "cinza" 0 25)]>
    (<["d" := to_dict (pupil 10 "branca" 0 0)]> ∅)))).

(** ** The routes ([src/routes/students.py]) *)

(** The assignments of the update route to the other profile fields. *)
Definition set_name (v : string) (s : Student) : Student :=
  mkStudent (uid s) v (email s) (belt s) (age s) (address s)
    (education s) (degrees s) (total_presences s) (last_presence_date s)
    (history_presences s).

Definition set_belt (v : string) (s : Student) : Student :=
  mkStudent (uid s) (name s) (email s) v (age s) (address s)
    (education s) (degrees s) (total_presences s) (last_presence_date s)
    (history_presences s).

Definition set_age (v : Z) (s : Student) : Student :=
  mkStudent (uid s) (name s) (email s) (belt s) v (address s)
    (education s) (degrees s) (total_presences s) (last_presence_date s)
    (history_presences s).

Definition set_address (v : string) (s : Student) : Student :=
  mkStudent (uid s) (name s) (email s) (belt s) (age s) v
    (education s) (degrees s) (total_presences s) (last_presence_date s)
    (history_presences s).

Definition set_education (v : string) (s : Student) : Student :=
  mkStudent (uid s) (name s) (email s) (belt s) (age s) (address s)
    v (degrees s) (total_presences s) (last_presence_date s)
    (history_presences s).

(** [request.current_user], as [require_auth] leaves it. *)
Record CurrentUser : Type := mkCurrentUser {
  cu_uid : string;
  cu_role : string
}.

(** [student.to_dict()] with the key ['presences_for_next_degree'] added. *)
Record Payload : Type := mkPayload {
  student_dict : Dict;
  presences_for_next_degree : Z
}.

(** The JSON body of a creation request: each key absent or present with a
    value of the type of the field it ends in ([int] of an integer is the
    integer itself). *)
Record CreateBody : Type := mkCreateBody {
  c_name : option string;
  c_email : option string;
  c_belt : option string;
  c_age : option Z;
  c_password : option string;
  c_address : option string;
  c_education : option string;
  c_degrees : option Z
}.

(** The JSON body of an update request, in the same way. *)
Record UpdateBody : Type := mkUpdateBody {
  u_name : option string;
  u_belt : option string;
  u_age : option Z;
  u_address : option string;
  u_education : option string;
  u_degrees : option Z
}.

(** What [auth.create_user(email, password, display_name)] does: it returns
    a user record with its uid or raises. *)
Inductive auth_result : Type :=
  | UserRecord (uid : string)
  | EmailAlreadyExistsError
  | AuthException (e : string).

(** The ['error'] texts of the routes:
    ['Acesso negado'], ['Estudante não encontrado'],
    ['Campo obrigatório: <field>'], ['Email já cadastrado no Auth'],
    ['Erro ao criar usuário no Auth: <e>'], ['Erro ao salvar estudante'],
    ['Erro ao atualizar estudante'], ['Erro interno: <e>']. *)
Inductive error : Type :=
  | AcessoNegado
  | EstudanteNaoEncontrado
  | CampoObrigatorio (field : string)
  | EmailJaCadastrado
  | ErroCriarUsuario (e : string)
  | ErroSalvar
  | ErroAtualizar
  | ErroInterno.

(** The JSON answers: a list of students (with its count on the graduation
    route), one student, one student with the message of a creation or an
    update, or an error. *)
Inductive body : Type :=
  | Students (students : list Payload)
  | StudentsCount (students : list Payload) (count : nat)
  | OneStudent (student : Payload)
  | Criado (student : Payload)
  | Atualizado (student : Payload)
  | Error (e : error).

Definition Response : Type := body * Z.

Module Routes.

(** The dictionary every route answers with for a student. *)
Definition payload (student : Student) : Payload :=
  {| student_dict := to_dict student;
     presences_for_next_degree := calculate_presences_for_next_degree student |}.

(** The loop that fills [students_data]. *)
Definition students_data (students : list Student) : list Payload :=
  foldl (fun data student => data ++ [payload student]) [] students.

(** [GET /]: [get_all_students] *)
Definition get_all_students (env : Env) (db : Db) : Response :=
  let students := get_all env db in
  (Students (students_data students), 200).

(** [GET /<uid>]: [get_student] *)
Definition get_student (current_user : CurrentUser) (env : Env) (db : Db)
    (uid : string) : Response :=
  if negb (String.eqb (cu_role current_user) "professor")
     && negb (String.eqb (cu_uid current_user) uid)
  then (Error AcessoNegado, 403)
  else
    match get_by_uid env db uid with
    | None => (Error EstudanteNaoEncontrado, 404)
    | Some student => (OneStudent (payload student), 200)
    end.

Definition required_fields : list string := ["name"; "email"; "belt"; "age"].

(** [field in data], on the keys the creation route tests. *)
Definition has_key (data : CreateBody) (field : string) : bool :=
  if String.eqb field "name" then bool_decide (is_Some (c_name data))
  else if String.eqb field "email" then bool_decide (is_Some (c_email data))
  else if String.eqb field "belt" then bool_decide (is_Some (c_belt data))
  else if String.eqb field "age" then bool_decide (is_Some (c_age data))
  else false.

(** [POST /]: [create_student]; [create_user] is the account service. *)
Definition create_student (create_user : string -> string -> string -> auth_result)
    (env : Env) (data : CreateBody) (db : Db) : Response * Db :=
  match List.find (fun field => negb (has_key data field)) required_fields with
  | Some field => ((Error (CampoObrigatorio field), 400), db)
  | None =>
      match c_name data, c_email data, c_belt data, c_age data with
      | Some name, Some email, Some belt, Some age =>
          match create_user email (get (c_password data) "aluno123") name with
          | EmailAlreadyExistsError => ((Error EmailJaCadastrado, 400), db)
          | AuthException e => ((Error (ErroCriarUsuario e), 500), db)
          | UserRecord uid =>
              let student :=
                init uid name email belt age
                  (get (c_address data) EmptyString)
                  (get (c_education data) EmptyString)
                  (get (c_degrees data) 0) in
              match save env (mkWorld student db) with
              | (Ret true, w) => ((Criado (payload (self_of w)), 201), db_of w)
              | (Ret false, w) => ((Error ErroSalvar, 500), db_of w)
              | (Raise, w) => ((Error ErroInterno, 500), db_of w)
              end
          end
      | _, _, _, _ => ((Error ErroInterno, 500), db)
      end
  end.

(** The six [if key in data] assignments of the update route. *)
Definition apply_update (data : UpdateBody) (student : Student) : Student :=
  let student :=
    match u_name data with Some v => set_name v student | None => student end in
  let student :=
    match u_belt data with Some v => set_belt v student | None => student end in
  let student :=
    match u_age data with Some v => set_age v student | None => student end in
  let student :=
    match u_address data with
    | Some v => set_address v student | None => student end in
  let student :=
    match u_education data with
    | Some v => set_education v student | None => student end in
  let student :=
    match u_degrees data with
    | Some v => set_degrees v student | None => student end in
  student.

(** [PUT /<uid>]: [update_student] *)
Definition update_student (env : Env) (uid : string) (data : UpdateBody)
    (db : Db) : Response * Db :=
  match get_by_uid env db uid with
  | None => ((Error EstudanteNaoEncontrado, 404), db)
  | Some student =>
      let student := apply_update data student in
      match save env (mkWorld student db) with
      | (Ret true, w) => ((Atualizado (payload (self_of w)), 200), db_of w)
      | (Ret false, w) => ((Error ErroAtualizar, 500), db_of w)
      | (Raise, w) => ((Error ErroInterno, 500), db_of w)
      end
  end.

(** [GET /close-to-graduation]: [get_students_close_to_graduation];
    [max_presences] is the query argument when it is there and reads as an
    integer. *)
Definition get_students_close_to_graduation (max_presences : option Z)
    (env : Env) (db : Db) : Response :=
  let max_presences := get max_presences 10 in
  let students := get_students_close_to_graduation env db max_presences in
  let data := students_data students in
  (StudentsCount data (length data), 200).

End Routes.

(** ** Notions the properties are stated with *)

(** The dates the calls of a sequence record: those of the calls that got a
    database handle, in order. *)
Definition recorded (calls : list call) : list datetime :=
  map (fun c => date_of (call_env c) (call_date c))
    (List.filter (fun c => db_available (call_env c)) calls).

(** The last presence is the last date of the history. *)
Definition last_matches_history (s : Student) : Prop :=
  last_presence_date s = last (history_presences s).

(** Every student document is stored under the uid it holds. *)
Definition well_keyed (db : Db) : Prop :=
  forall id doc, students db !! id = Some doc -> k_uid doc = Some id.

(** A world whose writes to the [users] collection fail. *)
Definition env_no_user_write : Env :=
  mkEnv true (fun coll _ => negb (String.eqb coll "users"))
    (fun _ => true) 1000.

(** A second student, and a store holding both under their uids, with an
    account document for the first. *)
Definition bia : Student :=
  mkStudent "u2" "Bia" "bia@ced.br" "cinza" 9 "Rua B" "fundamental" 2 3
    (Some 90) [70; 80; 90].

Definition academy : Db :=
  mkDb (<["u1" := <["role" := VStr "aluno"]> ∅]> ∅)
       (<["u1" := to_dict ana]> (<["u2" := to_dict bia]> ∅)).

(** The body of an update that changes belt and degrees. *)
Definition promotion : UpdateBody :=
  mkUpdateBody None (Some "azul") None None None (Some 1).

(** An account service that gives the uid ["u3"] to any new account with
    the default password and refuses any other password, and one for which
    every email is taken. *)
Definition auth_default_only (email password display_name : string)
    : auth_result :=
  if String.eqb password "aluno123" then UserRecord "u3"
  else AuthException "weak password".


(** The body of a creation with the four required keys only. *)
Definition enrolment : CreateBody :=
  mkCreateBody (Some "Caio") (Some "caio@ced.br") (Some "branca") (Some 30)
    None None None None.

(** * Properties of the graduation rule *)

Lemma belt_in_spec (b : string) (l : list string) :
  belt_in b l = true <-> b ∈ l.
Proof.
  unfold belt_in. rewrite existsb_exists. split.
  - intros (x & Hx & Heq). apply String.eqb_eq in Heq. subst x.
    by apply list_elem_of_In.
  - intros Hb. exists b. split; [by apply list_elem_of_In|].
    apply String.eqb_refl.
Qed.

Lemma belt_in_false (b : string) (l : list string) :
  b ∉ l -> belt_in b l = false.
Proof.
  intros Hb. destruct (belt_in b l) eqn:E; [|done].
  by apply belt_in_spec in E.
Qed.

Lemma branca_not_coloured : "branca" ∉ coloured_belts.
Proof.
  unfold coloured_belts. rewrite !elem_of_cons, elem_of_nil.
  intros H. repeat destruct H as [H|H]; discriminate || done.
Qed.

(** Cases on every test the rule makes. *)
Ltac rule_cases :=
  unfold calculate_presences_for_next_degree, set_total_presences, set_degrees;
  cbn [age belt degrees total_presences];
  repeat match goal with
    | |- context [Z.leb ?a ?b] => destruct (Z.leb_spec a b)
    | |- context [Z.eqb ?a ?b] => destruct (Z.eqb_spec a b)
    | |- context [String.eqb ?a ?b] => destruct (String.eqb a b)
    | |- context [belt_in ?a ?b] => destruct (belt_in a b)
    end.

Example kids_table : calculate_presences_for_next_degree (pupil 3 "branca" 0 0) = 10.
Proof. reflexivity. Qed.

Example kids_clamped : calculate_presences_for_next_degree (pupil 3 "branca" 0 12) = 0.
Proof. reflexivity. Qed.

Example kids_sentinel : calculate_presences_for_next_degree (pupil 5 "azul" 10 0) = 0.
Proof. reflexivity. Qed.

Example youth_75 : calculate_presences_for_next_degree (pupil 10 "colorida" 2 0) = 75.
Proof. reflexivity. Qed.

Example adult_branca : calculate_presences_for_next_degree (pupil 20 "branca" 0 30) = 20.
Proof. reflexivity. Qed.

Example adult_cinza : calculate_presences_for_next_degree (pupil 16 "cinza" 3 0) = 35.
Proof. reflexivity. Qed.

Example adult_azul : calculate_presences_for_next_degree (pupil 25 "azul" 1 0) = 100.
Proof. reflexivity. Qed.

(** C1, as the claim words it, fails: the rule compares the belt with the
    Portuguese labels, so from 14 years on the English labels ["white"] and
    ["grey"] are belts like any other and fall under the per-degree rule:
    a ["white"] belt with one degree needs 100 presences, not 50, and a
    ["grey"] belt with three degrees needs 200, not 35. *)
Lemma adult_english_labels_counterexample :
  let w := pupil 20 "white" 1 0 in
  let g := pupil 16 "grey" 3 0 in
  (14 <= age w /\ belt w = "white" /\
   calculate_presences_for_next_degree w <> Z.max 0 (50 - total_presences w))
  /\
  (14 <= age g /\
   belt g ∈ ["colored"; "grey"; "yellow"; "orange"; "green"] /\
   calculate_presences_for_next_degree g <> Z.max 0 (35 - total_presences g)).
Proof.
  simpl. repeat split; try lia; try done.
  rewrite !elem_of_cons. right. by left.
Qed.

(** From 14 years on only the tests on the belt are left. *)
Lemma adult_branch (self : Student) :
  14 <= age self ->
  calculate_presences_for_next_degree self
  = if String.eqb (belt self) "branca" then
      Z.max 0 (50 - total_presences self)
    else if belt_in (belt self) coloured_belts then
      Z.max 0 (35 - total_presences self)
    else Z.max 0 ((degrees self + 1) * 50 - total_presences self).
Proof.
  intros Hage. unfold calculate_presences_for_next_degree.
  assert (H6 : (age self <=? 6) = false) by (apply Z.leb_gt; lia).
  assert (H13 : (age self <=? 13) = false) by (apply Z.leb_gt; lia).
  by rewrite H6, H13.
Qed.

Lemma coloured_not_branca (b : string) :
  b ∈ coloured_belts -> String.eqb b "branca" = false.
Proof.
  intros Hin. apply String.eqb_neq. intros ->.
  by apply branca_not_coloured in Hin.
Qed.

(** C1, amended: for every age of 14 or more and every degrees and
    total_presences, the result is [max(0, 50 - total_presences)] when the
    belt is ['branca'], [max(0, 35 - total_presences)] when it is one of
    ['colorida'], ['cinza'], ['amarela'], ['laranja'], ['verde'] (degrees
    ignored in both), and [max(0, (degrees + 1) * 50 - total_presences)] for
    any other label. *)
Theorem adult_rule (self : Student) :
  14 <= age self ->
  (belt self = "branca" ->
   calculate_presences_for_next_degree self
   = Z.max 0 (50 - total_presences self))
  /\
  (belt self ∈ coloured_belts ->
   calculate_presences_for_next_degree self
   = Z.max 0 (35 - total_presences self))
  /\
  (belt self <> "branca" -> belt self ∉ coloured_belts ->
   calculate_presences_for_next_degree self
   = Z.max 0 ((degrees self + 1) * 50 - total_presences self)).
Proof.
  intros Hage. rewrite (adult_branch self Hage). split; [|split].
  - intros ->. reflexivity.
  - intros Hin. rewrite (coloured_not_branca _ Hin).
    apply belt_in_spec in Hin. by rewrite Hin.
  - intros Hne Hnin. apply String.eqb_neq in Hne. rewrite Hne.
    by rewrite (belt_in_false _ _ Hnin).
Qed.

Lemma adult_rule_witness :
  calculate_presences_for_next_degree (pupil 20 "branca" 2 30) = 20
  /\ calculate_presences_for_next_degree (pupil 16 "cinza" 3 0) = 35
  /\ calculate_presences_for_next_degree (pupil 25 "azul" 1 0) = 100.
Proof.
  split; [|split].
  - apply (proj1 (adult_rule (pupil 20 "branca" 2 30) ltac:(simpl; lia))).
    reflexivity.
  - apply (proj1 (proj2 (adult_rule (pupil 16 "cinza" 3 0) ltac:(simpl; lia)))).
    simpl. unfold coloured_belts. rewrite !elem_of_cons. right. by left.
  - apply (proj2 (proj2 (adult_rule (pupil 25 "azul" 1 0) ltac:(simpl; lia)))).
    + simpl. discriminate.
    + simpl. unfold coloured_belts. rewrite !elem_of_cons, elem_of_nil.
      intros H. repeat destruct H as [H|H]; discriminate || done.
Defined.

(** C2, as the claim words it, fails: nothing in the rule clamps. With 10
    years and no degree, -5 presences give 30 where 0 presences give 25;
    with 5 years, degrees -1 gives 0 where degrees 0 gives 10. *)
Lemma negative_counts_counterexample :
  let p := pupil 10 "branca" 0 (-5) in
  let d := pupil 5 "branca" (-1) 0 in
  (total_presences p < 0 /\
   calculate_presences_for_next_degree p
   <> calculate_presences_for_next_degree (set_total_presences 0 p))
  /\
  (degrees d < 0 /\
   calculate_presences_for_next_degree d
   <> calculate_presences_for_next_degree (set_degrees 0 d)).
Proof. simpl. repeat split; try lia; discriminate. Qed.

(** C2, amended: negative degrees and total_presences are never raised on
    and never clamped, the rule takes them as they are. A negative
    total_presences with degrees >= 0 adds its magnitude to the result for
    zero presences (except in the kids bracket from degrees 4 on, where the
    result is 0 either way); replacing a negative total_presences by zero
    never raises the result and replacing a negative degrees by zero never
    lowers it; the two results are equal where the rule does not read the
    value: degrees from 14 years on for the belt ['branca'] or a coloured
    one, and total_presences up to 6 years with degrees outside 0..3. *)
Theorem negative_counts_taken_as_they_are (self : Student) :
  (total_presences self < 0 -> 0 <= degrees self ->
   ~ (age self <= 6 /\ 4 <= degrees self) ->
   calculate_presences_for_next_degree self
   = calculate_presences_for_next_degree (set_total_presences 0 self)
     - total_presences self)
  /\
  (total_presences self < 0 ->
   calculate_presences_for_next_degree (set_total_presences 0 self)
   <= calculate_presences_for_next_degree self)
  /\
  (degrees self < 0 ->
   calculate_presences_for_next_degree self
   <= calculate_presences_for_next_degree (set_degrees 0 self))
  /\
  (degrees self < 0 -> 14 <= age self ->
   belt self = "branca" \/ belt self ∈ coloured_belts ->
   calculate_presences_for_next_degree self
   = calculate_presences_for_next_degree (set_degrees 0 self))
  /\
  (total_presences self < 0 -> age self <= 6 ->
   degrees self < 0 \/ 4 <= degrees self ->
   calculate_presences_for_next_degree self = 0
   /\ calculate_presences_for_next_degree (set_total_presences 0 self) = 0).
Proof.
  repeat split.
  - intros Htp Hd Hk. rule_cases; lia.
  - intros Htp. rule_cases; lia.
  - intros Hd. rule_cases; lia.
  - intros Hd Hage Hbelt.
    rewrite (adult_branch self Hage), (adult_branch (set_degrees 0 self) Hage).
    cbn [belt set_degrees total_presences].
    destruct Hbelt as [->|Hbelt]; [reflexivity|].
    rewrite (coloured_not_branca _ Hbelt).
    apply belt_in_spec in Hbelt. by rewrite Hbelt.
  - rule_cases; lia.
  - rule_cases; lia.
Qed.

Lemma negative_counts_taken_as_they_are_witness :
  calculate_presences_for_next_degree (pupil 10 "branca" 0 (-5)) = 25 - (-5)
  /\ calculate_presences_for_next_degree (pupil 5 "branca" (-1) 0) <= 10
  /\ calculate_presences_for_next_degree (pupil 20 "cinza" (-2) 0) = 35
  /\ calculate_presences_for_next_degree (pupil 5 "branca" 4 (-3)) = 0.
Proof.
  split; [|split; [|split]].
  - apply (proj1 (negative_counts_taken_as_they_are (pupil 10 "branca" 0 (-5))));
      simpl; lia.
  - apply (proj1 (proj2 (proj2
      (negative_counts_taken_as_they_are (pupil 5 "branca" (-1) 0)))));
      simpl; lia.
  - apply (proj1 (proj2 (proj2 (proj2
      (negative_counts_taken_as_they_are (pupil 20 "cinza" (-2) 0))))));
      simpl; try lia.
    right. unfold coloured_belts. rewrite !elem_of_cons. right. by left.
  - apply (proj2 (proj2 (proj2 (proj2
      (negative_counts_taken_as_they_are (pupil 5 "branca" 4 (-3)))))));
      simpl; lia.
Defined.

(** C3: up to 6 years, for every belt and every total_presences >= 0, the
    result is [max(0, 10 - total_presences)] at degrees 0,
    [max(0, 15 - total_presences)] at degrees 1 and 2,
    [max(0, 20 - total_presences)] at degrees 3, and 0 from degrees 4 on,
    whatever total_presences is. *)
Theorem kids_rule (self : Student) :
  age self <= 6 -> 0 <= total_presences self ->
  (degrees self = 0 ->
   calculate_presences_for_next_degree self
   = Z.max 0 (10 - total_presences self))
  /\
  (degrees self = 1 \/ degrees self = 2 ->
   calculate_presences_for_next_degree self
   = Z.max 0 (15 - total_presences self))
  /\
  (degrees self = 3 ->
   calculate_presences_for_next_degree self
   = Z.max 0 (20 - total_presences self))
  /\
  (4 <= degrees self -> calculate_presences_for_next_degree self = 0).
Proof.
  intros Hage Htp. repeat split; intros Hd; rule_cases; lia.
Qed.

Lemma kids_rule_witness :
  calculate_presences_for_next_degree (pupil 3 "branca" 0 4) = 6
  /\ calculate_presences_for_next_degree (pupil 6 "branca" 2 20) = 0
  /\ calculate_presences_for_next_degree (pupil 5 "cinza" 3 1) = 19
  /\ calculate_presences_for_next_degree (pupil 5 "cinza" 10 0) = 0.
Proof.
  split; [|split; [|split]].
  - apply (proj1 (kids_rule (pupil 3 "branca" 0 4)
             ltac:(simpl; lia) ltac:(simpl; lia))).
    reflexivity.
  - apply (proj1 (proj2 (kids_rule (pupil 6 "branca" 2 20)
             ltac:(simpl; lia) ltac:(simpl; lia)))).
    simpl. lia.
  - apply (proj1 (proj2 (proj2 (kids_rule (pupil 5 "cinza" 3 1)
             ltac:(simpl; lia) ltac:(simpl; lia))))).
    reflexivity.
  - apply (proj2 (proj2 (proj2 (kids_rule (pupil 5 "cinza" 10 0)
             ltac:(simpl; lia) ltac:(simpl; lia))))).
    simpl. lia.
Defined.

(** C4: from 7 to 13 years, for every belt, every degrees >= 0 and every
    total_presences >= 0, the result is
    [max(0, (degrees + 1) * 25 - total_presences)]. *)
Theorem youth_rule (self : Student) :
  7 <= age self <= 13 -> 0 <= degrees self -> 0 <= total_presences self ->
  calculate_presences_for_next_degree self
  = Z.max 0 ((degrees self + 1) * 25 - total_presences self).
Proof.
  intros Hage Hd Htp. rule_cases; lia.
Qed.

Lemma youth_rule_witness :
  calculate_presences_for_next_degree (pupil 10 "colorida" 2 0) = 75.
Proof.
  apply (youth_rule (pupil 10 "colorida" 2 0)); simpl; lia.
Defined.

(** C9: for every age, belt, degrees and total_presences, negative numbers
    included, the result is a non-negative integer. *)
Theorem result_non_negative (self : Student) :
  0 <= calculate_presences_for_next_degree self.
Proof.
  rule_cases; lia.
Qed.

(** * Properties of the writing methods *)

Lemma add_presence_with_handle (env : Env) (date : option datetime)
    (w : World) :
  db_available env = true ->
  add_presence env date w
  = let s := with_presence (date_of env date) (self_of w) in
    if write_ok env "students" (uid s) then
      (Ret true,
       mkWorld s
         (mkDb (users (db_of w))
            (<[uid s := merge_dict (to_dict s) (students (db_of w) !! uid s)]>
               (students (db_of w)))))
    else (Ret false, mkWorld s (db_of w)).
Proof.
  intros Hdb.
  unfold add_presence, try_except, get_db, mbind, Py_bind, mret, Py_ret,
    update_self, get_self, set_student_document.
  rewrite Hdb. cbn.
  destruct (write_ok env "students" (uid (self_of w))); reflexivity.
Qed.

Lemma add_presence_without_handle (env : Env) (date : option datetime)
    (w : World) :
  db_available env = false -> add_presence env date w = (Ret false, w).
Proof.
  intros Hdb.
  unfold add_presence, try_except, get_db, mbind, Py_bind, mret, Py_ret, raise.
  rewrite Hdb. reflexivity.
Qed.

(** C5, as the claim words it, fails: [get_db()] is called inside the [try]
    before the three assignments, so when it raises the call reports
    failure with the record untouched: no presence counted, no date set,
    nothing appended. *)
Lemma add_presence_failure_counterexample :
  let w := mkWorld ana empty_db in
  let r := add_presence env_no_db (Some 7) w in
  r.1 = Ret false
  /\ total_presences (self_of r.2) <> total_presences (self_of w) + 1
  /\ last_presence_date (self_of r.2) <> Some 7
  /\ history_presences (self_of r.2) <> history_presences (self_of w) ++ [7].
Proof. cbn. repeat split; discriminate. Qed.

(** C5, amended: for every student record and every timestamp, whenever
    [get_db()] returns a handle, [add_presence] increments total_presences
    by exactly 1, sets last_presence_date to the timestamp and appends the
    timestamp to history_presences, leaving the other fields alone; if the
    write to the store then fails the call returns [False] and the
    in-memory mutation has still occurred, and if it goes through the call
    returns [True]. When [get_db()] itself fails the call returns [False]
    and the record is unchanged. The call never raises. *)
Theorem add_presence_effect (env : Env) (date : option datetime) (w : World) :
  let t := date_of env date in
  let r := add_presence env date w in
  (db_available env = true ->
   total_presences (self_of r.2) = total_presences (self_of w) + 1
   /\ last_presence_date (self_of r.2) = Some t
   /\ history_presences (self_of r.2) = history_presences (self_of w) ++ [t]
   /\ self_of r.2 = with_presence t (self_of w)
   /\ (write_ok env "students" (uid (self_of w)) = false ->
       r.1 = Ret false /\ db_of r.2 = db_of w)
   /\ (write_ok env "students" (uid (self_of w)) = true ->
       r.1 = Ret true
       /\ students (db_of r.2) !! uid (self_of w)
          = Some (merge_dict (to_dict (with_presence t (self_of w)))
                    (students (db_of w) !! uid (self_of w)))))
  /\ (db_available env = false -> r.1 = Ret false /\ r.2 = w)
  /\ (exists b, r.1 = Ret b).
Proof.
  intros t r. subst t r. split; [|split].
  - intros Hdb. rewrite (add_presence_with_handle _ _ _ Hdb). cbn.
    destruct (write_ok env "students" (uid (self_of w))) eqn:Hw; cbn;
      repeat split; try done.
    by rewrite lookup_insert_eq.
  - intros Hdb. by rewrite (add_presence_without_handle _ _ _ Hdb).
  - destruct (db_available env) eqn:Hdb.
    + rewrite (add_presence_with_handle _ _ _ Hdb). cbn.
      destruct (write_ok env "students" (uid (self_of w))); cbn; eauto.
    + rewrite (add_presence_without_handle _ _ _ Hdb). eauto.
Qed.

Lemma add_presence_effect_witness :
  (let r := add_presence env_no_write (Some 7) (mkWorld ana empty_db) in
   total_presences (self_of r.2) = 0 + 1
   /\ last_presence_date (self_of r.2) = Some 7
   /\ history_presences (self_of r.2) = [] ++ [7]
   /\ r.1 = Ret false)
  /\
  (let r := add_presence env_ok None (mkWorld ana empty_db) in
   r.1 = Ret true /\ history_presences (self_of r.2) = [] ++ [1000])
  /\
  (let r := add_presence env_no_db (Some 7) (mkWorld ana empty_db) in
   r.1 = Ret false /\ r.2 = mkWorld ana empty_db).
Proof.
  split; [|split].
  - destruct (proj1 (add_presence_effect env_no_write (Some 7)
                       (mkWorld ana empty_db)) eq_refl)
      as (Htp & Hlast & Hhist & _ & Hfail & _).
    destruct (Hfail eq_refl) as (Hret & _).
    exact (conj Htp (conj Hlast (conj Hhist Hret))).
  - destruct (proj1 (add_presence_effect env_ok None
                       (mkWorld ana empty_db)) eq_refl)
      as (_ & _ & Hhist & _ & _ & Hok).
    destruct (Hok eq_refl) as (Hret & _).
    exact (conj Hret Hhist).
  - exact (proj1 (proj2 (add_presence_effect env_no_db (Some 7)
                           (mkWorld ana empty_db))) eq_refl).
Defined.

Lemma with_presence_matches (date : datetime) (s : Student) :
  counter_matches_history s -> counter_matches_history (with_presence date s).
Proof.
  unfold counter_matches_history, with_presence. cbn. intros ->.
  rewrite length_app. cbn. lia.
Qed.

Lemma add_presence_matches (env : Env) (date : option datetime) (w : World) :
  counter_matches_history (self_of w) ->
  counter_matches_history (self_of (add_presence env date w).2).
Proof.
  intros Hinv. destruct (db_available env) eqn:Hdb.
  - rewrite (add_presence_with_handle _ _ _ Hdb). cbn.
    destruct (write_ok env "students" (uid (self_of w))); cbn;
      by apply with_presence_matches.
  - by rewrite (add_presence_without_handle _ _ _ Hdb).
Qed.

Lemma add_presences_match (calls : list call) (w : World) :
  counter_matches_history (self_of w) ->
  counter_matches_history (self_of (add_presences calls w)).
Proof.
  revert w. induction calls as [|c rest IH]; intros w Hinv; cbn.
  - exact Hinv.
  - apply IH. by apply add_presence_matches.
Qed.

(** C6: a student made by the constructor has
    [total_presences == len(history_presences)], every call of
    [add_presence] keeps the equality, whether it succeeds or fails, and so
    it holds after any sequence of calls on a freshly made student. *)
Theorem counter_always_matches_history
    (uid name email belt : string) (age : Z) (address education : string)
    (degrees : Z) (db : Db) (calls : list call) :
  let fresh := init uid name email belt age address education degrees in
  counter_matches_history fresh
  /\ (forall env date w,
        counter_matches_history (self_of w) ->
        counter_matches_history (self_of (add_presence env date w).2))
  /\ counter_matches_history (self_of (add_presences calls (mkWorld fresh db))).
Proof.
  intros fresh. assert (Hfresh : counter_matches_history fresh) by reflexivity.
  split; [exact Hfresh|]. split.
  - apply add_presence_matches.
  - by apply add_presences_match.
Qed.

Lemma counter_always_matches_history_witness :
  let calls := [mkCall env_ok (Some 5); mkCall env_no_db (Some 6);
                mkCall env_no_write (Some 7); mkCall env_ok None] in
  let s := self_of (add_presences calls (mkWorld ana empty_db)) in
  history_presences s = [5; 7; 1000] /\ counter_matches_history s.
Proof.
  split; [reflexivity|].
  exact (proj2 (proj2 (counter_always_matches_history
    "u1" "Ana" "ana@ced.br" "branca" 20 "Rua A" "medio" 0 empty_db
    [mkCall env_ok (Some 5); mkCall env_no_db (Some 6);
     mkCall env_no_write (Some 7); mkCall env_ok None]))).
Defined.

(** * The dictionary round trip *)

(** C7: for every student [s], [Student.from_dict(s.to_dict())] is [s],
    field for field; a dictionary with no key is read as the student with
    empty strings, zero numbers, no last presence and an empty history, and
    a student read from any dictionary, with whatever keys absent, goes
    through the round trip unchanged as well. *)
Theorem from_dict_to_dict (s : Student) :
  from_dict (to_dict s) = s
  /\ (uid (from_dict (to_dict s)) = uid s
      /\ name (from_dict (to_dict s)) = name s
      /\ email (from_dict (to_dict s)) = email s
      /\ belt (from_dict (to_dict s)) = belt s
      /\ age (from_dict (to_dict s)) = age s
      /\ address (from_dict (to_dict s)) = address s
      /\ education (from_dict (to_dict s)) = education s
      /\ degrees (from_dict (to_dict s)) = degrees s
      /\ total_presences (from_dict (to_dict s)) = total_presences s
      /\ last_presence_date (from_dict (to_dict s)) = last_presence_date s
      /\ history_presences (from_dict (to_dict s)) = history_presences s)
  /\ from_dict empty_dict
     = mkStudent EmptyString EmptyString EmptyString EmptyString 0
         EmptyString EmptyString 0 0 None []
  /\ (forall data : Dict,
        from_dict (to_dict (from_dict data)) = from_dict data).
Proof.
  assert (Hrt : forall s, from_dict (to_dict s) = s).
  { intros s'. destruct s'. reflexivity. }
  split; [apply Hrt|]. rewrite Hrt.
  split; [by repeat split|]. split; [reflexivity|].
  intros data. apply Hrt.
Qed.

Example from_dict_partial :
  from_dict (mkDict (Some "u2") (Some "Bia") None None (Some 9) None None
               None (Some 3) None None)
  = mkStudent "u2" "Bia" EmptyString EmptyString 9 EmptyString EmptyString 0
      3 None [].
Proof. reflexivity. Qed.

(** * The account written by [save] *)

Lemma user_data_role (s : Student) :
  user_data s !! "role" = Some (VStr "aluno").
Proof.
  unfold user_data.
  rewrite lookup_insert_ne by done. rewrite lookup_insert_ne by done.
  apply lookup_insert_eq.
Qed.

Lemma merge_document_role (s : Student) (stored : option (gmap string value)) :
  merge_document (user_data s) stored !! "role" = Some (VStr "aluno").
Proof.
  destruct stored as [old|]; cbn; [|apply user_data_role].
  apply lookup_union_Some_l, user_data_role.
Qed.

(** C10: every call of [save] that returns [True] has written, under the
    student's uid in the [users] collection, the stored document merged
    with [user_data], whose field ['role'] is ['aluno'] whatever role was
    stored before. *)
Theorem save_marks_account_as_aluno (env : Env) (w : World) :
  (save env w).1 = Ret true ->
  users (db_of (save env w).2) !! uid (self_of w)
  = Some (merge_document (user_data (self_of w))
            (users (db_of w) !! uid (self_of w)))
  /\ exists doc,
       users (db_of (save env w).2) !! uid (self_of w) = Some doc
       /\ doc !! "role" = Some (VStr "aluno").
Proof.
  unfold save, try_except, get_db, mbind, Py_bind, mret, Py_ret, raise,
    get_self, set_user_document, set_student_document.
  destruct (db_available env); cbn; [|discriminate].
  destruct (write_ok env "users" (uid (self_of w))); cbn; [|discriminate].
  destruct (write_ok env "students" (uid (self_of w))); cbn; [|discriminate].
  intros _. rewrite lookup_insert_eq. split; [reflexivity|].
  eexists. split; [reflexivity|]. apply merge_document_role.
Qed.

Lemma save_marks_account_as_aluno_witness :
  let stored : gmap string value :=
    <["role" := VStr "professor"]> (<["phone" := VStr "555"]> ∅) in
  let w := mkWorld ana (mkDb (<["u1" := stored]> ∅) ∅) in
  (save env_ok w).1 = Ret true
  /\ exists doc,
       users (db_of (save env_ok w).2) !! "u1" = Some doc
       /\ doc !! "role" = Some (VStr "aluno").
Proof.
  intros stored w. split; [reflexivity|].
  exact (proj2 (save_marks_account_as_aluno env_ok w eq_refl)).
Defined.

Example save_keeps_other_fields :
  let stored : gmap string value :=
    <["role" := VStr "professor"]> (<["phone" := VStr "555"]> ∅) in
  let w := mkWorld ana (mkDb (<["u1" := stored]> ∅) ∅) in
  (users (db_of (save env_ok w).2) !! "u1") ≫= (.!! "phone")
  = Some (VStr "555").
Proof. vm_compute. reflexivity. Qed.

(** * Students close to graduation *)

(** The loop that appends the students passing a test is a filter. *)
Lemma foldl_append_filter {A : Type} (test : A -> bool) (l acc : list A) :
  foldl (fun acc x => if test x then acc ++ [x] else acc) acc l
  = acc ++ List.filter test l.
Proof.
  revert acc. induction l as [|x l IH]; intros acc; cbn.
  - by rewrite app_nil_r.
  - rewrite IH. destruct (test x); [|reflexivity].
    by rewrite <- app_assoc.
Qed.

Lemma close_test_spec (n max_presences : Z) :
  (0 <? n) && (n <=? max_presences) = true <-> 0 < n <= max_presences.
Proof. rewrite andb_true_iff, Z.ltb_lt, Z.leb_le. tauto. Qed.

(** C8: for every store and every threshold,
    [get_students_close_to_graduation] returns exactly the students of
    [get_all], in their order, whose result [n] of the rule has
    [0 < n <= max_presences]: a student with [n = 0] is left out, and so is
    one with [n] above the threshold. *)
Theorem close_to_graduation_exact (env : Env) (db : Db) (max_presences : Z) :
  let close := get_students_close_to_graduation env db max_presences in
  close
  = filter (fun s => 0 < calculate_presences_for_next_degree s <= max_presences)
      (get_all env db)
  /\ (forall s,
        s ∈ close <->
        s ∈ get_all env db
        /\ 0 < calculate_presences_for_next_degree s <= max_presences)
  /\ (forall s, calculate_presences_for_next_degree s = 0 -> s ∉ close)
  /\ (forall s, max_presences < calculate_presences_for_next_degree s ->
                s ∉ close).
Proof.
  intros close.
  assert (Heq : close
    = filter (fun s => 0 < calculate_presences_for_next_degree s <= max_presences)
        (get_all env db)).
  { subst close. unfold get_students_close_to_graduation.
    rewrite (foldl_append_filter
      (fun s => (0 <? calculate_presences_for_next_degree s)
                && (calculate_presences_for_next_degree s <=? max_presences))).
    cbn. induction (get_all env db) as [|s l IH]; [reflexivity|].
    cbn. rewrite IH. unfold filter at 2. cbn. 
    destruct (decide (0 < calculate_presences_for_next_degree s <= max_presences))
      as [Hyes|Hno].
    - apply close_test_spec in Hyes. by rewrite Hyes.
    - destruct ((0 <? calculate_presences_for_next_degree s)
                && (calculate_presences_for_next_degree s <=? max_presences))
        eqn:E; [|reflexivity].
      by apply close_test_spec in E. }
  assert (Hin : forall s, s ∈ close <->
    s ∈ get_all env db
    /\ 0 < calculate_presences_for_next_degree s <= max_presences).
  { intros s. rewrite Heq, list_elem_of_filter. tauto. }
  split; [exact Heq|]. split; [exact Hin|]. split.
  - intros s Hz Hs. apply Hin in Hs. lia.
  - intros s Hz Hs. apply Hin in Hs. lia.
Qed.

Example roster_close :
  get_students_close_to_graduation env_ok roster 10
  = [pupil 20 "branca" 0 45; pupil 20 "cinza" 0 25]
    \/ get_students_close_to_graduation env_ok roster 10
       = [pupil 20 "cinza" 0 25; pupil 20 "branca" 0 45].
Proof. vm_compute. auto. Qed.

Example roster_unreadable :
  get_students_close_to_graduation env_no_db roster 10 = [].
Proof. reflexivity. Qed.

(** * What [save] leaves in the store *)

Lemma merge_dict_to_dict (s : Student) (stored : option Dict) :
  merge_dict (to_dict s) stored = to_dict s.
Proof. destruct stored; reflexivity. Qed.

Lemma from_dict_of_to_dict (s : Student) : from_dict (to_dict s) = s.
Proof. destruct s. reflexivity. Qed.

Lemma merge_document_idemp (data : gmap string value)
    (stored : option (gmap string value)) :
  merge_document data (Some (merge_document data stored))
  = merge_document data stored.
Proof.
  destruct stored as [old|]; cbn.
  - by rewrite (assoc_L (∪)), (idemp_L (∪)).
  - by rewrite (idemp_L (∪)).
Qed.

(** The three tests [save] goes through and the world each one leaves. *)
Lemma save_cases (env : Env) (w : World) :
  save env w
  = let s := self_of w in
    let db := db_of w in
    if db_available env then
      if write_ok env "users" (uid s) then
        let users' :=
          <[uid s := merge_document (user_data s) (users db !! uid s)]>
            (users db) in
        if write_ok env "students" (uid s) then
          (Ret true,
           mkWorld s (mkDb users' (<[uid s := to_dict s]> (students db))))
        else (Ret false, mkWorld s (mkDb users' (students db)))
      else (Ret false, w)
    else (Ret false, w).
Proof.
  unfold save, try_except, get_db, mbind, Py_bind, mret, Py_ret, raise,
    get_self, set_user_document, set_student_document.
  destruct (db_available env); cbn; [|reflexivity].
  destruct (write_ok env "users" (uid (self_of w))); cbn; [|reflexivity].
  destruct (write_ok env "students" (uid (self_of w))); cbn; [|reflexivity].
  by rewrite merge_dict_to_dict.
Qed.

Lemma get_by_uid_readable (env : Env) (db : Db) (id : string) :
  db_available env = true -> read_ok env "students" = true ->
  get_by_uid env db id = from_dict <$> students db !! id.
Proof.
  intros Hdb Hr. unfold get_by_uid. rewrite Hdb, Hr. cbn.
  by destruct (students db !! id).
Qed.

(** X1: a student that [save] reported saved is the one [get_by_uid]
    returns for its uid afterwards, field for field, whatever document was
    stored under that uid before. *)
Theorem save_then_get_by_uid (env env' : Env) (w : World) :
  (save env w).1 = Ret true ->
  db_available env' = true -> read_ok env' "students" = true ->
  get_by_uid env' (db_of (save env w).2) (uid (self_of w))
  = Some (self_of w).
Proof.
  intros Hsave Hdb Hr. rewrite (get_by_uid_readable _ _ _ Hdb Hr).
  rewrite save_cases in *. cbn in *.
  destruct (db_available env); [|discriminate].
  destruct (write_ok env "users" (uid (self_of w))); [|discriminate].
  destruct (write_ok env "students" (uid (self_of w))); [|discriminate].
  cbn. rewrite lookup_insert_eq. cbn. by rewrite from_dict_of_to_dict.
Qed.

Lemma save_then_get_by_uid_witness :
  let stale := to_dict (pupil 9 "cinza" 2 40) in
  let w := mkWorld ana (mkDb ∅ (<["u1" := stale]> ∅)) in
  get_by_uid env_ok (db_of (save env_ok w).2) "u1" = Some ana.
Proof.
  intros stale w.
  exact (save_then_get_by_uid env_ok env_ok w eq_refl eq_refl eq_refl).
Defined.

(** X2: [save] returns [True] exactly when the handle and both writes went
    through, and never raises or changes the student. A failure before the
    [users] write leaves the store as it was; a failure of the [students]
    write leaves the account document already written and the students
    collection as it was: the two writes are not undone together. *)
Theorem save_failure_modes (env : Env) (w : World) :
  let id := uid (self_of w) in
  let r := save env w in
  r.1 = Ret (db_available env && write_ok env "users" id
             && write_ok env "students" id)
  /\ self_of r.2 = self_of w
  /\ (db_available env && write_ok env "users" id = false ->
      db_of r.2 = db_of w)
  /\ (db_available env = true -> write_ok env "users" id = true ->
      write_ok env "students" id = false ->
      students (db_of r.2) = students (db_of w)
      /\ users (db_of r.2) !! id
         = Some (merge_document (user_data (self_of w))
                   (users (db_of w) !! id))).
Proof.
  intros id r. subst id r. rewrite save_cases. cbn.
  destruct (db_available env), (write_ok env "users" (uid (self_of w))),
    (write_ok env "students" (uid (self_of w))); cbn;
    repeat split; try done; intros; try done;
    by rewrite lookup_insert_eq.
Qed.

Lemma save_failure_modes_witness :
  let w := mkWorld ana empty_db in
  (save env_no_user_write w).1 = Ret false
  /\ db_of (save env_no_user_write w).2 = empty_db
  /\ (save env_no_write w).1 = Ret false
  /\ students (db_of (save env_no_write w).2) = ∅
  /\ users (db_of (save env_no_write w).2) !! "u1"
     = Some (merge_document (user_data ana) None).
Proof.
  intros w.
  destruct (save_failure_modes env_no_user_write w) as (Hr & _ & Hdb & _).
  destruct (save_failure_modes env_no_write w) as (Hr' & _ & _ & Hpart).
  destruct (Hpart eq_refl eq_refl eq_refl) as (Hst & Hus).
  exact (conj Hr (conj (Hdb eq_refl) (conj Hr' (conj Hst Hus)))).
Defined.

(** X3: [save] touches no document but the two of its student: every other
    account and every other student document is as before, and in the
    account document every stored field that is not one of the nine that
    [user_data] holds keeps its value. *)
Theorem save_frame (env : Env) (w : World) (id field : string) :
  let db' := db_of (save env w).2 in
  (id <> uid (self_of w) ->
   users db' !! id = users (db_of w) !! id
   /\ students db' !! id = students (db_of w) !! id)
  /\ (user_data (self_of w) !! field = None ->
      users db' !! uid (self_of w) ≫= (.!! field)
      = users (db_of w) !! uid (self_of w) ≫= (.!! field)).
Proof.
  intros db'. subst db'. rewrite save_cases. cbn.
  destruct (db_available env), (write_ok env "users" (uid (self_of w))),
    (write_ok env "students" (uid (self_of w))); cbn; split; try done;
    try (intros Hne; by rewrite ?lookup_insert_ne by done).
  all: intros Hnone; rewrite lookup_insert_eq; cbn;
    destruct (users (db_of w) !! uid (self_of w)) as [old|]; cbn;
    [by rewrite lookup_union_r | done].
Qed.

Lemma save_frame_witness :
  let stored : gmap string value :=
    <["role" := VStr "professor"]> (<["phone" := VStr "555"]> ∅) in
  let w := mkWorld ana (mkDb (<["u1" := stored]> (<["u9" := stored]> ∅)) ∅) in
  users (db_of (save env_ok w).2) !! "u9" = Some stored
  /\ users (db_of (save env_ok w).2) !! "u1" ≫= (.!! "phone")
     = Some (VStr "555").
Proof.
  intros stored w. split.
  - exact (proj1 (proj1 (save_frame env_ok w "u9" "phone") ltac:(discriminate))).
  - exact (proj2 (save_frame env_ok w "u9" "phone") eq_refl).
Defined.

(** X4: saving twice is saving once: the second [save] of the same student
    in the same conditions returns the same answer and leaves the world the
    first one left, whether the writes went through or failed. *)
Theorem save_idempotent (env : Env) (w : World) :
  save env (save env w).2 = save env w.
Proof.
  rewrite (save_cases env w). cbn.
  destruct (db_available env) eqn:Hdb; cbn;
    [|rewrite save_cases; cbn; by rewrite Hdb].
  destruct (write_ok env "users" (uid (self_of w))) eqn:Hu; cbn;
    [|rewrite save_cases; cbn; by rewrite Hdb, Hu].
  destruct (write_ok env "students" (uid (self_of w))) eqn:Hs; cbn;
    rewrite save_cases; cbn; rewrite Hdb, Hu, Hs; cbn;
    rewrite lookup_insert_eq, merge_document_idemp, !insert_insert_eq;
    reflexivity.
Qed.

(** * Sequences of presences *)

Lemma add_presence_self (env : Env) (date : option datetime) (w : World) :
  self_of (add_presence env date w).2
  = if db_available env then with_presence (date_of env date) (self_of w)
    else self_of w.
Proof.
  destruct (db_available env) eqn:Hdb.
  - rewrite (add_presence_with_handle _ _ _ Hdb). cbn.
    by destruct (write_ok env "students" (uid (self_of w))).
  - by rewrite (add_presence_without_handle _ _ _ Hdb).
Qed.

Lemma add_presences_self (calls : list call) (w : World) :
  self_of (add_presences calls w)
  = foldl (fun s date => with_presence date s) (self_of w) (recorded calls).
Proof.
  revert w. induction calls as [|c rest IH]; intros w; cbn; [reflexivity|].
  rewrite IH, add_presence_self. unfold recorded. cbn.
  by destruct (db_available (call_env c)).
Qed.

(** X5: after any sequence of [add_presence] calls the history is the
    history before followed by the dates of the calls that got a database
    handle, in call order, whether their write succeeded or not; the counter
    has grown by the number of those calls, and the eight profile fields are
    the ones before. *)
Theorem add_presences_history (calls : list call) (w : World) :
  let s := self_of w in
  let s' := self_of (add_presences calls w) in
  history_presences s' = history_presences s ++ recorded calls
  /\ total_presences s' = total_presences s + Z.of_nat (length (recorded calls))
  /\ (uid s' = uid s /\ name s' = name s /\ email s' = email s
      /\ belt s' = belt s /\ age s' = age s /\ address s' = address s
      /\ education s' = education s /\ degrees s' = degrees s).
Proof.
  cbn. rewrite add_presences_self.
  generalize (recorded calls) as dates. generalize (self_of w) as s.
  intros s dates. revert s.
  induction dates as [|d dates IH]; intros s; cbn.
  - rewrite app_nil_r. repeat split; lia.
  - destruct (IH (with_presence d s))
      as (Hh & Ht & Hu & Hn & He & Hb & Hag & Had & Hed & Hdg).
    rewrite Hh, Ht, Hu, Hn, He, Hb, Hag, Had, Hed, Hdg. cbn.
    rewrite <- app_assoc. cbn. repeat split; try done. lia.
Qed.

Example three_calls_two_recorded :
  recorded [mkCall env_ok (Some 5); mkCall env_no_db (Some 6);
            mkCall env_no_write None] = [5; 1000].
Proof. reflexivity. Qed.

Lemma with_presence_last (date : datetime) (s : Student) :
  last_matches_history (with_presence date s).
Proof.
  unfold last_matches_history, with_presence. cbn. by rewrite last_snoc.
Qed.

(** X6: on a student made by the constructor, after any sequence of
    [add_presence] calls, [last_presence_date] is the last date of
    [history_presences], or [None] while the history is empty. *)
Theorem last_presence_is_last_of_history
    (uid name email belt : string) (age : Z) (address education : string)
    (degrees : Z) (db : Db) (calls : list call) :
  let fresh := init uid name email belt age address education degrees in
  last_matches_history (self_of (add_presences calls (mkWorld fresh db))).
Proof.
  intros fresh.
  assert (Hgen : forall w, last_matches_history (self_of w) ->
            last_matches_history (self_of (add_presences calls w))).
  { induction calls as [|c rest IH]; intros w Hw; cbn; [exact Hw|].
    apply IH. rewrite add_presence_self.
    destruct (db_available (call_env c)); [apply with_presence_last|exact Hw]. }
  by apply Hgen.
Qed.

(** X7: [k] more presences lower the result of the rule by [k], stopping at
    zero: the rule on [total_presences + k] is [max(0, n - k)] where [n] is
    the rule on [total_presences], for every age, belt and degrees. *)
Theorem rule_counts_down (self : Student) (k : Z) :
  0 <= k ->
  calculate_presences_for_next_degree
    (set_total_presences (total_presences self + k) self)
  = Z.max 0 (calculate_presences_for_next_degree self - k).
Proof.
  intros Hk. rule_cases; lia.
Qed.

Lemma rule_counts_down_witness :
  calculate_presences_for_next_degree
    (set_total_presences (45 + 3) (pupil 20 "branca" 0 45)) = 2
  /\ calculate_presences_for_next_degree
       (set_total_presences (45 + 9) (pupil 20 "branca" 0 45)) = 0.
Proof.
  split.
  - exact (rule_counts_down (pupil 20 "branca" 0 45) 3 ltac:(lia)).
  - exact (rule_counts_down (pupil 20 "branca" 0 45) 9 ltac:(lia)).
Defined.

Lemma result_floor (s : Student) :
  0 <= calculate_presences_for_next_degree s.
Proof. rule_cases; lia. Qed.

Lemma with_presence_rule (date : datetime) (s : Student) :
  calculate_presences_for_next_degree (with_presence date s)
  = Z.max 0 (calculate_presences_for_next_degree s - 1).
Proof.
  unfold with_presence, set_history_presences, set_last_presence_date.
  rule_cases; lia.
Qed.

(** X8: after any sequence of [add_presence] calls the presences still
    needed are the ones needed before minus the number of calls that got a
    database handle, stopping at zero. *)
Theorem presences_needed_after_calls (calls : list call) (w : World) :
  calculate_presences_for_next_degree (self_of (add_presences calls w))
  = Z.max 0 (calculate_presences_for_next_degree (self_of w)
             - Z.of_nat (length (recorded calls))).
Proof.
  rewrite add_presences_self.
  generalize (recorded calls) as dates. generalize (self_of w) as s.
  intros s dates. revert s.
  induction dates as [|d dates IH]; intros s; cbn.
  - pose proof (result_floor s). lia.
  - rewrite IH, with_presence_rule. lia.
Qed.

Example ana_after_three_calls :
  calculate_presences_for_next_degree
    (self_of (add_presences
       [mkCall env_ok (Some 5); mkCall env_no_db (Some 6);
        mkCall env_no_write None] (mkWorld ana empty_db))) = 48.
Proof. reflexivity. Qed.

(** X9: a presence that [add_presence] reported recorded is in the store:
    [get_by_uid] afterwards returns the student with the counter
    incremented, the date as last presence and the date appended. *)
Theorem add_presence_then_get_by_uid (env env' : Env)
    (date : option datetime) (w : World) :
  (add_presence env date w).1 = Ret true ->
  db_available env' = true -> read_ok env' "students" = true ->
  get_by_uid env' (db_of (add_presence env date w).2) (uid (self_of w))
  = Some (with_presence (date_of env date) (self_of w)).
Proof.
  intros Hret Hdb Hr. rewrite (get_by_uid_readable _ _ _ Hdb Hr).
  destruct (db_available env) eqn:Hh.
  - rewrite (add_presence_with_handle _ _ _ Hh) in *. cbn in *.
    destruct (write_ok env "students" (uid (self_of w))); [|discriminate].
    cbn. rewrite lookup_insert_eq. cbn.
    by rewrite merge_dict_to_dict, from_dict_of_to_dict.
  - rewrite (add_presence_without_handle _ _ _ Hh) in Hret. discriminate.
Qed.

Lemma add_presence_then_get_by_uid_witness :
  let w := mkWorld ana empty_db in
  get_by_uid env_ok (db_of (add_presence env_ok (Some 7) w).2) "u1"
  = Some (with_presence 7 ana).
Proof.
  intros w.
  exact (add_presence_then_get_by_uid env_ok env_ok (Some 7) w
           eq_refl eq_refl eq_refl).
Defined.

(** * Documents stored under their uid *)

Lemma well_keyed_insert (db : Db) (s : Student)
    (users' : gmap string (gmap string value)) :
  well_keyed db ->
  well_keyed (mkDb users' (<[uid s := to_dict s]> (students db))).
Proof.
  intros Hwk id doc. cbn. destruct (decide (uid s = id)) as [<-|Hne].
  - rewrite lookup_insert_eq. by intros [= <-].
  - rewrite lookup_insert_ne by done. apply Hwk.
Qed.

(** X10: [save] and [add_presence] keep every student document stored
    under the uid it holds: if that is so before the call it is so after
    it, whether the call succeeds or fails. *)
Theorem writes_keep_documents_keyed (env : Env) (date : option datetime)
    (w : World) :
  well_keyed (db_of w) ->
  well_keyed (db_of (save env w).2)
  /\ well_keyed (db_of (add_presence env date w).2).
Proof.
  intros Hwk. split.
  - rewrite save_cases. cbn.
    destruct (db_available env), (write_ok env "users" (uid (self_of w))),
      (write_ok env "students" (uid (self_of w))); cbn; try exact Hwk.
    by apply well_keyed_insert.
  - destruct (db_available env) eqn:Hh.
    + rewrite (add_presence_with_handle _ _ _ Hh). cbn.
      destruct (write_ok env "students" (uid (self_of w))); cbn;
        [|exact Hwk].
      rewrite merge_dict_to_dict.
      apply (well_keyed_insert (db_of w)
               (with_presence (date_of env date) (self_of w))), Hwk.
    + by rewrite (add_presence_without_handle _ _ _ Hh).
Qed.

Lemma well_keyed_empty : well_keyed empty_db.
Proof. intros id doc. cbn. by rewrite lookup_empty. Qed.

Lemma writes_keep_documents_keyed_witness :
  well_keyed (db_of (save env_ok (mkWorld ana empty_db)).2)
  /\ well_keyed (db_of (add_presence env_ok None (mkWorld ana empty_db)).2).
Proof.
  exact (writes_keep_documents_keyed env_ok None (mkWorld ana empty_db)
           well_keyed_empty).
Defined.

(** * Reading the roster *)

Lemma foldl_snoc_map {A B : Type} (f : A -> B) (l : list A) (acc : list B) :
  foldl (fun acc x => acc ++ [f x]) acc l = acc ++ map f l.
Proof.
  revert acc. induction l as [|x l IH]; intros acc; cbn.
  - by rewrite app_nil_r.
  - rewrite IH. by rewrite <- app_assoc.
Qed.

Lemma get_all_readable (env : Env) (db : Db) :
  db_available env = true -> read_ok env "students" = true ->
  get_all env db = map from_dict (map_to_list (students db)).*2.
Proof.
  intros Hdb Hr. unfold get_all. rewrite Hdb, Hr. cbn.
  apply (foldl_snoc_map from_dict).
Qed.

Lemma get_all_unreadable (env : Env) (db : Db) :
  db_available env && read_ok env "students" = false ->
  get_all env db = [] /\ forall id, get_by_uid env db id = None.
Proof.
  intros H. unfold get_all, get_by_uid. by rewrite H.
Qed.

(** X11: [get_all] and [get_by_uid] read the same roster: a student is in
    the list of [get_all] exactly when [get_by_uid] returns it for some
    uid. *)
Theorem get_all_is_every_get_by_uid (env : Env) (db : Db) (s : Student) :
  s ∈ get_all env db <-> exists id, get_by_uid env db id = Some s.
Proof.
  destruct (db_available env && read_ok env "students") eqn:Hread.
  - apply andb_true_iff in Hread as [Hdb Hr].
    rewrite (get_all_readable _ _ Hdb Hr). split.
    + intros Hin. apply list_elem_of_In, in_map_iff in Hin
        as (doc & <- & Hdoc).
      apply list_elem_of_In, list_elem_of_fmap in Hdoc
        as ([id doc'] & -> & Hpair).
      apply elem_of_map_to_list in Hpair. exists id.
      rewrite (get_by_uid_readable _ _ _ Hdb Hr). by rewrite Hpair.
    + intros (id & Hget). rewrite (get_by_uid_readable _ _ _ Hdb Hr) in Hget.
      destruct (students db !! id) as [doc|] eqn:Hdoc; [|discriminate].
      injection Hget as <-. apply list_elem_of_In, in_map.
      apply list_elem_of_In, list_elem_of_fmap. exists (id, doc).
      split; [reflexivity|]. by apply elem_of_map_to_list.
  - destruct (get_all_unreadable env db Hread) as (-> & Hnone). split.
    + intros Hin. by apply elem_of_nil in Hin.
    + intros (id & Hget). by rewrite Hnone in Hget.
Qed.

(** X12: when the collection can be read [get_all] returns one student per
    stored document; when the handle or the read fails it returns the empty
    list and [get_by_uid] returns [None] for every uid, as for an empty
    collection. *)
Theorem get_all_length (env : Env) (db : Db) :
  (db_available env = true -> read_ok env "students" = true ->
   length (get_all env db) = size (students db))
  /\ (db_available env && read_ok env "students" = false ->
      get_all env db = [] /\ forall id, get_by_uid env db id = None).
Proof.
  split.
  - intros Hdb Hr. rewrite (get_all_readable _ _ Hdb Hr).
    by rewrite length_map, length_fmap, length_map_to_list.
  - apply get_all_unreadable.
Qed.

Lemma get_all_length_witness :
  length (get_all env_ok roster) = 4%nat
  /\ get_all env_no_db roster = []
  /\ get_by_uid env_no_db roster "b" = None.
Proof.
  destruct (get_all_length env_ok roster) as (Hlen & _).
  destruct (get_all_length env_no_db roster) as (_ & Hfail).
  destruct (Hfail eq_refl) as (Hnil & Hnone).
  exact (conj (Hlen eq_refl eq_refl) (conj Hnil (Hnone "b"))).
Defined.

(** X13: a student saved under a uid that was not in the collection is one
    more student in [get_all], and all the others are still there: the list
    after the [save] is the saved student and the list before, in some
    order. *)
Theorem save_adds_to_get_all (env env' : Env) (w : World) :
  (save env w).1 = Ret true ->
  students (db_of w) !! uid (self_of w) = None ->
  db_available env' = true -> read_ok env' "students" = true ->
  get_all env' (db_of (save env w).2)
  ≡ₚ self_of w :: get_all env' (db_of w).
Proof.
  intros Hsave Hnew Hdb Hr. rewrite !(get_all_readable _ _ Hdb Hr).
  rewrite save_cases in *. cbn in *.
  destruct (db_available env); [|discriminate].
  destruct (write_ok env "users" (uid (self_of w))); [|discriminate].
  destruct (write_ok env "students" (uid (self_of w))); [|discriminate].
  cbn. rewrite (map_to_list_insert _ _ _ Hnew). cbn.
  by rewrite from_dict_of_to_dict.
Qed.

Lemma save_adds_to_get_all_witness :
  get_all env_ok (db_of (save env_ok (mkWorld ana roster)).2)
  ≡ₚ ana :: get_all env_ok roster.
Proof.
  exact (save_adds_to_get_all env_ok env_ok (mkWorld ana roster)
           eq_refl eq_refl eq_refl eq_refl).
Defined.

Lemma close_list_filter (env : Env) (db : Db) (max_presences : Z) :
  get_students_close_to_graduation env db max_presences
  = List.filter
      (fun s => (0 <? calculate_presences_for_next_degree s)
                && (calculate_presences_for_next_degree s <=? max_presences))
      (get_all env db).
Proof.
  unfold get_students_close_to_graduation.
  apply (foldl_append_filter
    (fun s => (0 <? calculate_presences_for_next_degree s)
              && (calculate_presences_for_next_degree s <=? max_presences))).
Qed.

Lemma filter_sublist_mono {A : Type} (p q : A -> bool) (l : list A) :
  (forall x, p x = true -> q x = true) ->
  List.filter p l `sublist_of` List.filter q l.
Proof.
  intros Hpq. induction l as [|x l IH]; cbn; [constructor|].
  destruct (p x) eqn:Hp.
  - rewrite (Hpq x Hp). by constructor.
  - destruct (q x); [by constructor|exact IH].
Qed.

(** X14: the list of students close to graduation grows with the
    threshold: the list for a threshold is a sublist, in order, of the list
    for any larger threshold, which is a sublist of [get_all]; for a
    threshold of zero or less the list is empty. *)
Theorem close_list_grows_with_threshold (env : Env) (db : Db) (m m' : Z) :
  (m <= m' ->
   get_students_close_to_graduation env db m
   `sublist_of` get_students_close_to_graduation env db m')
  /\ get_students_close_to_graduation env db m `sublist_of` get_all env db
  /\ (m <= 0 -> get_students_close_to_graduation env db m = []).
Proof.
  rewrite !close_list_filter. split; [|split].
  - intros Hle. apply filter_sublist_mono. intros s.
    rewrite !andb_true_iff, !Z.ltb_lt, !Z.leb_le. lia.
  - induction (get_all env db) as [|s l IH]; cbn; [constructor|].
    destruct (_ && _); by constructor.
  - intros Hm. induction (get_all env db) as [|s l IH]; cbn; [reflexivity|].
    destruct ((0 <? calculate_presences_for_next_degree s)
              && (calculate_presences_for_next_degree s <=? m)) eqn:E;
      [|exact IH].
    apply andb_true_iff in E as [H1 H2].
    apply Z.ltb_lt in H1. apply Z.leb_le in H2. lia.
Qed.

Lemma close_list_grows_with_threshold_witness :
  get_students_close_to_graduation env_ok roster 5
  `sublist_of` get_students_close_to_graduation env_ok roster 10
  /\ get_students_close_to_graduation env_ok roster 0 = [].
Proof.
  destruct (close_list_grows_with_threshold env_ok roster 5 10)
    as (Hmono & _ & _).
  destruct (close_list_grows_with_threshold env_ok roster 0 0)
    as (_ & _ & Hzero).
  exact (conj (Hmono ltac:(lia)) (Hzero ltac:(lia))).
Defined.

(** * The routes *)

Lemma students_data_map (students : list Student) :
  Routes.students_data students = map Routes.payload students.
Proof. apply (foldl_snoc_map Routes.payload). Qed.

Lemma well_keyed_get_by_uid (env : Env) (db : Db) (id : string) (s : Student) :
  well_keyed db -> get_by_uid env db id = Some s -> uid s = id.
Proof.
  intros Hwk. unfold get_by_uid.
  destruct (db_available env && read_ok env "students"); [|discriminate].
  destruct (students db !! id) as [doc|] eqn:Hdoc; [|discriminate].
  intros [= <-]. unfold from_dict. cbn. by rewrite (Hwk _ _ Hdoc).
Qed.

(** X15: [get_student] never hands a student's record to another student:
    a caller whose role is not ['professor'] asking for a uid that is not
    its own gets 403 whatever the store holds or does, so the answer does
    not tell whether the uid exists; and a 200 answer goes to a professor or
    to the student the record was asked for. *)
Theorem get_student_access (current_user : CurrentUser) (env : Env) (db : Db)
    (uid : string) :
  (cu_role current_user <> "professor" -> cu_uid current_user <> uid ->
   Routes.get_student current_user env db uid = (Error AcessoNegado, 403))
  /\ ((Routes.get_student current_user env db uid).2 = 200 ->
      cu_role current_user = "professor" \/ cu_uid current_user = uid).
Proof.
  unfold Routes.get_student.
  destruct (String.eqb_spec (cu_role current_user) "professor") as [Hr|Hr];
    destruct (String.eqb_spec (cu_uid current_user) uid) as [Hu|Hu]; cbn;
    split; try tauto; try done; try (intros; by auto).
Qed.

Lemma get_student_access_witness :
  Routes.get_student (mkCurrentUser "u7" "aluno") env_ok roster "b"
  = (Error AcessoNegado, 403)
  /\ Routes.get_student (mkCurrentUser "u7" "aluno") env_ok roster "zz"
     = (Error AcessoNegado, 403).
Proof.
  split.
  - apply (proj1 (get_student_access (mkCurrentUser "u7" "aluno") env_ok
                    roster "b")); cbn; discriminate.
  - apply (proj1 (get_student_access (mkCurrentUser "u7" "aluno") env_ok
                    roster "zz")); cbn; discriminate.
Defined.

(** X16: for a professor, or a student asking for its own uid,
    [get_student] answers 200 with the stored student and the result of the
    rule on it when [get_by_uid] finds the document, and 404 otherwise, a
    failure of the store included; when documents are stored under their
    uid the dictionary answered holds the uid asked for. *)
Theorem get_student_answer (current_user : CurrentUser) (env : Env) (db : Db)
    (uid : string) :
  cu_role current_user = "professor" \/ cu_uid current_user = uid ->
  (forall s, get_by_uid env db uid = Some s ->
     Routes.get_student current_user env db uid
     = (OneStudent (mkPayload (to_dict s)
                      (calculate_presences_for_next_degree s)), 200)
     /\ (well_keyed db -> k_uid (to_dict s) = Some uid))
  /\ (get_by_uid env db uid = None ->
      Routes.get_student current_user env db uid
      = (Error EstudanteNaoEncontrado, 404))
  /\ (db_available env && read_ok env "students" = false ->
      Routes.get_student current_user env db uid
      = (Error EstudanteNaoEncontrado, 404)).
Proof.
  intros Hallowed.
  assert (Hgate : negb (String.eqb (cu_role current_user) "professor")
                  && negb (String.eqb (cu_uid current_user) uid) = false).
  { destruct Hallowed as [-> | ->]; rewrite String.eqb_refl; cbn;
      [reflexivity|apply andb_false_r]. }
  unfold Routes.get_student. rewrite Hgate. split; [|split].
  - intros s Hs. rewrite Hs. split; [reflexivity|].
    intros Hwk. cbn. f_equal. by apply (well_keyed_get_by_uid env db).
  - by intros ->.
  - intros Hfail. destruct (get_all_unreadable env db Hfail) as (_ & Hnone).
    by rewrite Hnone.
Qed.

Lemma get_student_answer_witness :
  Routes.get_student (mkCurrentUser "b" "aluno") env_ok roster "b"
  = (OneStudent (mkPayload (to_dict (pupil 20 "branca" 0 45)) 5), 200)
  /\ Routes.get_student (mkCurrentUser "t" "professor") env_ok roster "zz"
     = (Error EstudanteNaoEncontrado, 404)
  /\ Routes.get_student (mkCurrentUser "t" "professor") env_no_db roster "b"
     = (Error EstudanteNaoEncontrado, 404).
Proof.
  split; [|split].
  - exact (proj1 (proj1 (get_student_answer (mkCurrentUser "b" "aluno")
             env_ok roster "b" (or_intror eq_refl))
             (pupil 20 "branca" 0 45) eq_refl)).
  - exact (proj1 (proj2 (get_student_answer (mkCurrentUser "t" "professor")
             env_ok roster "zz" (or_introl eq_refl))) eq_refl).
  - exact (proj2 (proj2 (get_student_answer (mkCurrentUser "t" "professor")
             env_no_db roster "b" (or_introl eq_refl))) eq_refl).
Defined.

(** X17: [get_all_students] always answers 200, with one entry per student
    of [get_all], in order, each the student's dictionary with the result of
    the rule on that student; when the store fails the answer is still a
    200, with an empty list. *)
Theorem get_all_students_answer (env : Env) (db : Db) :
  Routes.get_all_students env db
  = (Students
       (map (fun s => mkPayload (to_dict s)
                        (calculate_presences_for_next_degree s))
          (get_all env db)), 200)
  /\ (db_available env && read_ok env "students" = false ->
      Routes.get_all_students env db = (Students [], 200)).
Proof.
  unfold Routes.get_all_students. rewrite students_data_map. split.
  - reflexivity.
  - intros Hfail. by destruct (get_all_unreadable env db Hfail) as (-> & _).
Qed.

(** X18: every entry the graduation route answers with has
    [0 < presences_for_next_degree <= max_presences], where [max_presences]
    is 10 when the query gives none; the entries are those of the students
    of [Student.get_students_close_to_graduation], in order, and [count] is
    their number. *)
Theorem close_route_answer (max_presences : option Z) (env : Env) (db : Db) :
  let m := match max_presences with Some v => v | None => 10 end in
  exists data,
    Routes.get_students_close_to_graduation max_presences env db
    = (StudentsCount data (length data), 200)
    /\ data = map Routes.payload (get_students_close_to_graduation env db m)
    /\ Forall (fun p => 0 < presences_for_next_degree p <= m) data.
Proof.
  intros m. eexists. split; [reflexivity|].
  rewrite students_data_map.
  replace (get max_presences 10) with m by (by destruct max_presences).
  split; [reflexivity|].
  rewrite close_list_filter. apply Forall_forall. intros p Hp.
  apply list_elem_of_In, in_map_iff in Hp as (s & <- & Hs).
  apply filter_In in Hs as (_ & Hs). cbn.
  apply andb_true_iff in Hs as [H1 H2].
  apply Z.ltb_lt in H1. apply Z.leb_le in H2. lia.
Qed.

Example close_route_default :
  exists p q, Routes.get_students_close_to_graduation None env_ok roster
              = (StudentsCount [p; q] 2, 200).
Proof. eexists _, _. vm_compute. reflexivity. Qed.

Lemma apply_update_eq (data : UpdateBody) (s : Student) :
  Routes.apply_update data s
  = mkStudent (uid s) (get (u_name data) (name s)) (email s)
      (get (u_belt data) (belt s)) (get (u_age data) (age s))
      (get (u_address data) (address s))
      (get (u_education data) (education s))
      (get (u_degrees data) (degrees s))
      (total_presences s) (last_presence_date s) (history_presences s).
Proof.
  destruct s, data as [[?|] [?|] [?|] [?|] [?|] [?|]]; reflexivity.
Qed.

(** X19: a 200 answer of [update_student] carries the stored student with
    each of name, belt, age, address, education and degrees replaced by the
    value of the body when the body has the key and kept otherwise; uid,
    email, total_presences, last_presence_date and history_presences are
    the stored ones, the result of the rule is the one for the updated
    student, and the dictionary answered is the document now stored under
    the student's uid. *)
Theorem update_student_answer (env : Env) (uid0 : string) (data : UpdateBody)
    (db db' : Db) (p : Payload) :
  Routes.update_student env uid0 data db = ((Atualizado p, 200), db') ->
  exists s,
    get_by_uid env db uid0 = Some s
    /\ student_dict p
       = mkDict (Some (uid s)) (Some (get (u_name data) (name s)))
           (Some (email s)) (Some (get (u_belt data) (belt s)))
           (Some (get (u_age data) (age s)))
           (Some (get (u_address data) (address s)))
           (Some (get (u_education data) (education s)))
           (Some (get (u_degrees data) (degrees s)))
           (Some (total_presences s)) (Some (last_presence_date s))
           (Some (history_presences s))
    /\ presences_for_next_degree p
       = calculate_presences_for_next_degree (from_dict (student_dict p))
    /\ students db' !! uid s = Some (student_dict p).
Proof.
  unfold Routes.update_student.
  destruct (get_by_uid env db uid0) as [s|]; [|discriminate].
  rewrite save_cases. cbn.
  destruct (db_available env); [|discriminate].
  assert (Hu : uid (Routes.apply_update data s) = uid s)
    by (by rewrite apply_update_eq).
  rewrite Hu.
  destruct (write_ok env "users" (uid s)); [|discriminate].
  destruct (write_ok env "students" (uid s)); [|discriminate].
  intros [= <- <-]. exists s. cbn. rewrite from_dict_of_to_dict.
  rewrite lookup_insert_eq, apply_update_eq. cbn. done.
Qed.

Lemma update_student_answer_witness :
  exists s,
    get_by_uid env_ok academy "u2" = Some s
    /\ k_belt (to_dict (Routes.apply_update promotion s)) = Some "azul"
    /\ k_total_presences (to_dict (Routes.apply_update promotion s))
       = Some 3.
Proof.
  destruct (update_student_answer env_ok "u2" promotion academy
              (Routes.update_student env_ok "u2" promotion academy).2
              (Routes.payload (Routes.apply_update promotion bia))
              eq_refl) as (s & Hs & _).
  exists s. split; [exact Hs|].
  injection Hs as <-. split; reflexivity.
Defined.

(** X20: [update_student] writes nothing when the student is not found,
    and otherwise no document but those of the uid held by the stored
    student; when documents are stored under their uid that is the uid
    asked for, every other account and student document is as before, and
    documents are stored under their uid afterwards as well. *)
Theorem update_student_frame (env : Env) (uid0 : string) (data : UpdateBody)
    (db : Db) :
  let db' := (Routes.update_student env uid0 data db).2 in
  (get_by_uid env db uid0 = None -> db' = db)
  /\ (well_keyed db ->
      well_keyed db'
      /\ forall id, id <> uid0 ->
           users db' !! id = users db !! id
           /\ students db' !! id = students db !! id).
Proof.
  unfold Routes.update_student. cbn.
  destruct (get_by_uid env db uid0) as [s|] eqn:Hget; cbn;
    [|split; [done|by intros Hwk]].
  split; [discriminate|]. intros Hwk.
  pose proof (well_keyed_get_by_uid _ _ _ _ Hwk Hget) as Huid.
  assert (Hu : uid (Routes.apply_update data s) = uid0)
    by (by rewrite apply_update_eq).
  rewrite save_cases. cbn. rewrite Hu.
  destruct (db_available env), (write_ok env "users" uid0),
    (write_ok env "students" uid0); cbn; split; try done;
    try (intros id Hne; by rewrite ?lookup_insert_ne by done).
  rewrite <- Hu. by apply well_keyed_insert.
Qed.

Lemma academy_well_keyed : well_keyed academy.
Proof.
  intros id doc. unfold academy. cbn.
  rewrite !lookup_insert. repeat case_decide; subst;
    rewrite ?lookup_empty; by intros [= <-].
Qed.

Lemma update_student_frame_witness :
  students (Routes.update_student env_ok "u2" promotion academy).2 !! "u1"
  = Some (to_dict ana)
  /\ (Routes.update_student env_ok "zz" promotion academy).2 = academy.
Proof.
  split.
  - exact (proj2 (proj2 (proj2 (update_student_frame env_ok "u2" promotion
             academy) academy_well_keyed) "u1" ltac:(discriminate))).
  - exact (proj1 (update_student_frame env_ok "zz" promotion academy)
             eq_refl).
Defined.

(** X21: [create_student] answers 400 with the first missing key among
    name, email, belt and age, in that order, before the account service is
    called and with nothing written. *)
Theorem create_student_required_fields
    (create_user : string -> string -> string -> auth_result)
    (env : Env) (data : CreateBody) (db : Db) :
  let r := Routes.create_student create_user env data db in
  (c_name data = None -> r = ((Error (CampoObrigatorio "name"), 400), db))
  /\ (is_Some (c_name data) -> c_email data = None ->
      r = ((Error (CampoObrigatorio "email"), 400), db))
  /\ (is_Some (c_name data) -> is_Some (c_email data) ->
      c_belt data = None ->
      r = ((Error (CampoObrigatorio "belt"), 400), db))
  /\ (is_Some (c_name data) -> is_Some (c_email data) ->
      is_Some (c_belt data) -> c_age data = None ->
      r = ((Error (CampoObrigatorio "age"), 400), db)).
Proof.
  unfold Routes.create_student. cbn.
  repeat split.
  - intros Hn. unfold Routes.has_key. cbn. by rewrite Hn.
  - intros [n Hn] He. unfold Routes.has_key. cbn. by rewrite Hn, He.
  - intros [n Hn] [e He] Hb. unfold Routes.has_key. cbn.
    by rewrite Hn, He, Hb.
  - intros [n Hn] [e He] [b Hb] Ha. unfold Routes.has_key. cbn.
    by rewrite Hn, He, Hb, Ha.
Qed.

Lemma create_student_required_fields_witness :
  Routes.create_student auth_default_only env_ok
    (mkCreateBody (Some "Caio") None None (Some 30) None None None None)
    academy
  = ((Error (CampoObrigatorio "email"), 400), academy).
Proof.
  exact (proj1 (proj2 (create_student_required_fields auth_default_only env_ok
    (mkCreateBody (Some "Caio") None None (Some 30) None None None None)
    academy)) (ex_intro _ "Caio" eq_refl) eq_refl).
Defined.

Lemma create_student_with_fields
    (create_user : string -> string -> string -> auth_result)
    (env : Env) (data : CreateBody) (db : Db)
    (name email belt : string) (age : Z) :
  c_name data = Some name -> c_email data = Some email ->
  c_belt data = Some belt -> c_age data = Some age ->
  Routes.create_student create_user env data db
  = match create_user email (get (c_password data) "aluno123") name with
    | EmailAlreadyExistsError => ((Error EmailJaCadastrado, 400), db)
    | AuthException e => ((Error (ErroCriarUsuario e), 500), db)
    | UserRecord uid =>
        let student :=
          init uid name email belt age (get (c_address data) EmptyString)
            (get (c_education data) EmptyString) (get (c_degrees data) 0) in
        match save env (mkWorld student db) with
        | (Ret true, w) =>
            ((Criado (Routes.payload (self_of w)), 201), db_of w)
        | (Ret false, w) => ((Error ErroSalvar, 500), db_of w)
        | (Raise, w) => ((Error ErroInterno, 500), db_of w)
        end
    end.
Proof.
  intros Hn He Hb Ha. unfold Routes.create_student, Routes.has_key. cbn.
  by rewrite Hn, He, Hb, Ha.
Qed.

(** X22: a 201 answer of [create_student] means that the four required
    keys were there, the account service returned a uid for the email, the
    password of the body (['aluno123'] when it has none) and the name, and
    the student now stored under that uid is a new one: the fields of the
    body, empty address and education and zero degrees where the body has
    none, no presence, no last presence, an empty history. The answer
    carries its dictionary and the result of the rule on it, and the
    account stored under the uid has the role ['aluno']. *)
Theorem create_student_created
    (create_user : string -> string -> string -> auth_result)
    (env : Env) (data : CreateBody) (db db' : Db) (p : Payload) :
  Routes.create_student create_user env data db = ((Criado p, 201), db') ->
  exists id name email belt age,
    c_name data = Some name /\ c_email data = Some email
    /\ c_belt data = Some belt /\ c_age data = Some age
    /\ create_user email (get (c_password data) "aluno123") name
       = UserRecord id
    /\ let s :=
         mkStudent id name email belt age (get (c_address data) EmptyString)
           (get (c_education data) EmptyString) (get (c_degrees data) 0)
           0 None [] in
       p = mkPayload (to_dict s) (calculate_presences_for_next_degree s)
       /\ students db' !! id = Some (to_dict s)
       /\ (users db' !! id ≫= (.!! "role")) = Some (VStr "aluno").
Proof.
  intros Hr.
  destruct (c_name data) as [n|] eqn:Hn;
    [|unfold Routes.create_student, Routes.has_key in Hr; cbn in Hr;
      rewrite Hn in Hr; discriminate].
  destruct (c_email data) as [e|] eqn:He;
    [|unfold Routes.create_student, Routes.has_key in Hr; cbn in Hr;
      rewrite Hn, He in Hr; discriminate].
  destruct (c_belt data) as [b|] eqn:Hb;
    [|unfold Routes.create_student, Routes.has_key in Hr; cbn in Hr;
      rewrite Hn, He, Hb in Hr; discriminate].
  destruct (c_age data) as [a|] eqn:Ha;
    [|unfold Routes.create_student, Routes.has_key in Hr; cbn in Hr;
      rewrite Hn, He, Hb, Ha in Hr; discriminate].
  rewrite (create_student_with_fields _ _ _ _ n e b a Hn He Hb Ha) in Hr.
  destruct (create_user e (get (c_password data) "aluno123") n) as [id| |msg]
    eqn:Hauth; [|discriminate|discriminate].
  cbv zeta in Hr. rewrite save_cases in Hr. cbn in Hr.
  destruct (db_available env); [|discriminate].
  destruct (write_ok env "users" id); [|discriminate].
  destruct (write_ok env "students" id); [|discriminate].
  injection Hr as <- <-.
  exists id, n, e, b, a. repeat split; try done.
  - cbn. by rewrite lookup_insert_eq.
  - cbn. rewrite lookup_insert_eq. cbn. apply merge_document_role.
Qed.

Lemma create_student_created_witness :
  exists id,
    auth_default_only "caio@ced.br" "aluno123" "Caio" = UserRecord id
    /\ students (Routes.create_student auth_default_only env_ok enrolment
                   academy).2 !! id
       = Some (to_dict (init id "Caio" "caio@ced.br" "branca" 30
                          EmptyString EmptyString 0)).
Proof.
  destruct (create_student_created auth_default_only env_ok enrolment academy
              (Routes.create_student auth_default_only env_ok enrolment
                 academy).2
              (Routes.payload (init "u3" "Caio" "caio@ced.br" "branca" 30
                                 EmptyString EmptyString 0))
              eq_refl)
    as (id & n & e & b & a & Hn & He & Hb & Ha & Hauth & _ & Hst & _).
  injection Hn as <-. injection He as <-. injection Hb as <-.
  injection Ha as <-. exists id. split; [exact Hauth|exact Hst].
Defined.



(** * More on dictionaries and presences *)

(** X24: reading a dictionary and writing it back keeps every key that was
    present with its value and fills every absent key with the default of
    its field: the result is the dictionary merged over the dictionary of
    the all-default student. In particular a dictionary with all eleven keys
    comes back unchanged. *)
Theorem to_dict_from_dict (data : Dict) :
  to_dict (from_dict data)
  = merge_dict data (Some (to_dict (from_dict empty_dict)))
  /\ (is_Some (k_uid data) -> is_Some (k_name data) ->
      is_Some (k_email data) -> is_Some (k_belt data) ->
      is_Some (k_age data) -> is_Some (k_address data) ->
      is_Some (k_education data) -> is_Some (k_degrees data) ->
      is_Some (k_total_presences data) ->
      is_Some (k_last_presence_date data) ->
      is_Some (k_history_presences data) ->
      to_dict (from_dict data) = data).
Proof.
  destruct data as [u n e b a ad ed dg tp lp hp]. split.
  - unfold to_dict, from_dict, merge_dict. cbn.
    f_equal; match goal with |- _ = merge_key ?x _ => by destruct x end.
  - cbn. intros [? ->] [? ->] [? ->] [? ->] [? ->] [? ->] [? ->] [? ->]
      [? ->] [? ->] [? ->]. reflexivity.
Qed.

Lemma to_dict_from_dict_witness :
  to_dict (from_dict (to_dict bia)) = to_dict bia.
Proof.
  apply (proj2 (to_dict_from_dict (to_dict bia))); cbn; eauto.
Defined.

(** X25: [add_presence] writes no account and no document of another
    student: the [users] collection is as before, and so is every document
    of the [students] collection but the one of the student's uid. *)
Theorem add_presence_frame (env : Env) (date : option datetime) (w : World)
    (id : string) :
  let db' := db_of (add_presence env date w).2 in
  users db' = users (db_of w)
  /\ (id <> uid (self_of w) -> students db' !! id = students (db_of w) !! id).
Proof.
  cbn. destruct (db_available env) eqn:Hh.
  - rewrite (add_presence_with_handle _ _ _ Hh). cbn.
    destruct (write_ok env "students" (uid (self_of w))); cbn;
      split; try done.
    intros Hne. by rewrite lookup_insert_ne.
  - by rewrite (add_presence_without_handle _ _ _ Hh).
Qed.

Lemma add_presence_frame_witness :
  students (db_of (add_presence env_ok (Some 7) (mkWorld ana academy)).2)
    !! "u2" = Some (to_dict bia).
Proof.
  exact (proj2 (add_presence_frame env_ok (Some 7) (mkWorld ana academy) "u2")
           ltac:(discriminate)).
Defined.

(** X26: a presence whose write failed is not lost while the object lives:
    when [add_presence] got a handle, whether its own write went through or
    not, and a later [save] of the same object succeeds, the store holds the
    student with that presence. *)
Theorem save_after_add_presence (env env_save env' : Env)
    (date : option datetime) (w : World) :
  db_available env = true ->
  (save env_save (add_presence env date w).2).1 = Ret true ->
  db_available env' = true -> read_ok env' "students" = true ->
  get_by_uid env' (db_of (save env_save (add_presence env date w).2).2)
    (uid (self_of w))
  = Some (with_presence (date_of env date) (self_of w)).
Proof.
  intros Hh Hsave Hdb Hr. rewrite (get_by_uid_readable _ _ _ Hdb Hr).
  assert (Hself : self_of (add_presence env date w).2
                  = with_presence (date_of env date) (self_of w))
    by (by rewrite add_presence_self, Hh).
  rewrite save_cases in *. cbn in *. rewrite Hself in *. cbn in *.
  destruct (db_available env_save); [|discriminate].
  destruct (write_ok env_save "users" (uid (self_of w))); [|discriminate].
  destruct (write_ok env_save "students" (uid (self_of w))); [|discriminate].
  cbn. rewrite lookup_insert_eq. cbn. by rewrite from_dict_of_to_dict.
Qed.

Lemma save_after_add_presence_witness :
  let w := mkWorld ana academy in
  (add_presence env_no_write (Some 7) w).1 = Ret false
  /\ get_by_uid env_ok
       (db_of (save env_ok (add_presence env_no_write (Some 7) w).2).2) "u1"
     = Some (with_presence 7 ana).
Proof.
  intros w. split; [reflexivity|].
  exact (save_after_add_presence env_no_write env_ok env_ok (Some 7) w
           eq_refl eq_refl eq_refl eq_refl).
Defined.

Lemma get_all_students_answer_witness :
  Routes.get_all_students env_no_db academy = (Students [], 200)
  /\ exists p q, Routes.get_all_students env_ok academy
                 = (Students [p; q], 200).
Proof.
  split.
  - exact (proj2 (get_all_students_answer env_no_db academy) eq_refl).
  - eexists _, _.
    rewrite (proj1 (get_all_students_answer env_ok academy)).
    vm_compute. reflexivity.
Defined.
